(** * OpenHands backend: Hugging Face Spaces deployment scripts

    A shallow embedding of the two scripts of the repository,

    - [app_hf.py]: [setup_hf_environment], the provisioner that fills the
      process environment with defaults and creates the scratch directories;
    - [test_hf_deploy.py]: [test_file_preparation], [simulate_workflow],
      [check_hf_token] and [main], the local packaging pipeline,

    over a small model of the part of the Python runtime they touch: the
    process environment ([os.environ]), a file tree, standard output and
    exceptions.

    Modelling conventions.
    - A file tree has regular files and directories only; owners, modes,
      timestamps, links and special files are left out, so the only ways an
      operation fails are the ones that show in the shape of the tree (a
      missing entry, a file where a directory is expected and the converse).
    - A file's content is its sequence of bytes, a [string].  Text-mode I/O
      ([open(p, "r")], [open(p, "w")]) uses UTF-8 and POSIX line endings:
      reading decodes strictly and applies Python's universal-newline
      translation, writing is the identity on bytes.
    - [print] appends one entry to the standard output of the world.  Two
      kinds of line are kept structured instead of rendered: the report of
      a caught exception and the listing of the staged files.  Standard
      output is a strict UTF-8 stream: every text that the scripts fix
      (their messages, the names of the required files) can be written to
      it, and so can the report of an exception, whose message escapes
      what it quotes.  A name read from the file tree is data: a file name
      is a sequence of bytes, and one that is not valid UTF-8 cannot be
      printed ([UnicodeEncodeError]).
    - Failures that do not show in the shape of the tree (a directory that
      may not be written, a read-only or full file system, a recursion too
      deep for the interpreter) are outside the model: theorems say what
      the code does when none of them strikes.  What is proved about a
      successful run of the provisioner or of the staging stage starts
      from a run that returned, or relates two runs; success is not
      inferred from the shape of the tree.
    - The token of [secrets.token_urlsafe] comes from outside: it is a
      parameter of the function that may draw it. *)

From Stdlib Require Import Ascii String NArith.
From stdpp Require Import gmap strings list fin_maps.

#[local] Set Warnings "-register-all".
#[local] Open Scope string_scope.

(* ===================================================================== *)
(** * The Python runtime model                                            *)
(* ===================================================================== *)

Module Py.

(** A path, split into its components. *)
Abbreviation path := (list string).

(** The [errno] values that the modelled file operations can produce.
    Python maps them to [FileNotFoundError], [FileExistsError],
    [NotADirectoryError], [IsADirectoryError] and plain [OSError]. *)
Inductive errno : Type := ENOENT | EEXIST | ENOTDIR | EISDIR | EINVAL.

(** Exceptions.  All of them derive from [Exception]. *)
Inductive exn : Type :=
  | OSError (code : errno) (filename : path)
  | SameFileError (src dst : path)
  | UnicodeDecodeError (object : string)
  | UnicodeEncodeError.

(** A node of the file tree. *)
Inductive node : Type :=
  | File (content : string)
  | Dir (entries : gmap string node).

(** One [print] call. *)
Inductive line : Type :=
  | Print (text : string)
  | PrintExn (prefix : string) (e : exn)
  | PrintListing (header : string) (tree : node).

(** What a script can see and change. *)
Record World : Type := mkWorld {
  environ : gmap string string;
  fs : node;
  stdout : list line
}.

Definition set_environ (f : gmap string string → gmap string string)
    (w : World) : World :=
  {| environ := f (environ w); fs := fs w; stdout := stdout w |}.

Definition set_fs (n : node) (w : World) : World :=
  {| environ := environ w; fs := n; stdout := stdout w |}.

Definition add_stdout (l : line) (w : World) : World :=
  {| environ := environ w; fs := fs w; stdout := stdout w ++ [l] |}.

(** The result of running a piece of code: a value, or a raised
    exception. *)
Inductive result (A : Type) : Type :=
  | Val (a : A)
  | Exc (e : exn).
Arguments Val {A} a.
Arguments Exc {A} e.

(** Code: a world transformer that returns or raises.  The world at the
    point of a raise is kept (nothing is rolled back). *)
Definition M (A : Type) : Type := World → result A * World.

#[global] Instance M_ret : MRet M := λ A a w, (Val a, w).

#[global] Instance M_bind : MBind M := λ A B f m w,
  match m w with
  | (Val a, w') => f a w'
  | (Exc e, w') => (Exc e, w')
  end.

Definition raise {A : Type} (e : exn) : M A := λ w, (Exc e, w).

(** [try: body except Exception as e: handler(e)] *)
Definition try_except {A : Type} (body : M A) (handler : exn → M A) : M A :=
  λ w, match body w with
       | (Val a, w') => (Val a, w')
       | (Exc e, w') => handler e w'
       end.

(** [print(s)] of a text that the script fixes. *)
Definition print (s : string) : M unit :=
  λ w, (Val (), add_stdout (Print s) w).

(** [print(f"{prefix}{e}")] *)
Definition print_exn (prefix : string) (e : exn) : M unit :=
  λ w, (Val (), add_stdout (PrintExn prefix e) w).

(** Python truthiness of an optional string: [None] and [""] are false. *)
Definition truthy (o : option string) : bool :=
  match o with
  | None => false
  | Some s => negb (String.eqb s "")
  end.

(** ** The process environment *)

(** [os.getenv(key)] *)
Definition os_getenv (key : string) : M (option string) :=
  λ w, (Val (environ w !! key), w).

(** [dict.setdefault]: insert only when the key is absent. *)
Definition setdefault (key value : string) (env : gmap string string)
    : gmap string string :=
  match env !! key with
  | Some _ => env
  | None => <[key := value]> env
  end.

(** [os.environ.setdefault(key, value)] *)
Definition os_environ_setdefault (key value : string) : M unit :=
  λ w, (Val (), set_environ (setdefault key value) w).

(** [os.environ[key] = value] *)
Definition os_environ_setitem (key value : string) : M unit :=
  λ w, (Val (), set_environ (insert key value) w).

(** ** Paths *)

Definition slash : ascii := "/"%char.

(** [s.split("/")] *)
Fixpoint split_slash (s : string) : list string :=
  match s with
  | EmptyString => [""]
  | String c s' =>
      if Ascii.eqb c slash then "" :: split_slash s'
      else match split_slash s' with
           | h :: t => String c h :: t
           | [] => [String c ""]
           end
  end.

(** The components of a path string: empty components and ["."] vanish,
    as they do in path resolution (and in [pathlib.Path]).  A path is
    resolved from the root of the tree of the world: the root directory
    for the absolute paths of [app_hf.py], the invocation directory for
    the relative paths of [test_hf_deploy.py].  No path of the two
    scripts has a [".."], which is not treated. *)
Definition parse (s : string) : path :=
  filter (λ c, c ≠ "" ∧ c ≠ ".") (split_slash s).

(** Does the path string end in a slash?  Such a path names a directory. *)
Definition trailing_slash (s : string) : bool :=
  match last (split_slash s) with
  | Some "" => negb (String.eqb s "")
  | _ => false
  end.

(** [os.path.basename] on a parsed path. *)
Definition basename (p : path) : string := default "" (last p).

(** ** The file tree *)

(** Path resolution. *)
Fixpoint walk (p : path) (n : node) : errno + node :=
  match p with
  | [] => inr n
  | x :: p' =>
      match n with
      | File _ => inl ENOTDIR
      | Dir m =>
          match m !! x with
          | None => inl ENOENT
          | Some c => walk p' c
          end
      end
  end.

(** Change the entry that a path names: [f] gets the entry as it is
    ([None] when absent) and returns the entry as it shall be ([None] to
    remove it).  The directory that holds the entry must exist. *)
Fixpoint update (p : path) (f : option node → errno + option node) (n : node)
    : errno + node :=
  match p with
  | [] =>
      match f (Some n) with
      | inl e => inl e
      | inr (Some n') => inr n'
      | inr None => inl EINVAL
      end
  | x :: p' =>
      match n with
      | File _ => inl ENOTDIR
      | Dir m =>
          match p' with
          | [] =>
              match f (m !! x) with
              | inl e => inl e
              | inr o => inr (Dir (partial_alter (λ _, o) x m))
              end
          | _ :: _ =>
              match m !! x with
              | None => inl ENOENT
              | Some c =>
                  match update p' f c with
                  | inl e => inl e
                  | inr c' => inr (Dir (<[x := c']> m))
                  end
              end
          end
      end
  end.

Definition is_dir (p : path) (n : node) : bool :=
  match walk p n with
  | inr (Dir _) => true
  | _ => false
  end.

Definition is_file (p : path) (n : node) : bool :=
  match walk p n with
  | inr (File _) => true
  | _ => false
  end.

(** Lift a tree operation into [M]; an [errno] becomes an [OSError] that
    names the path. *)
Definition fs_op (p : path) (op : node → errno + node) : M unit :=
  λ w, match op (fs w) with
       | inl e => (Exc (OSError e p), w)
       | inr n => (Val (), set_fs n w)
       end.

(** What [os.path.exists(s)] answers on a tree: a trailing slash asks
    for a directory. *)
Definition exists_at (s : string) (n : node) : bool :=
  match walk (parse s) n with
  | inl _ => false
  | inr (Dir _) => true
  | inr (File _) => negb (trailing_slash s)
  end.

(** [os.path.exists(s)]: never raises. *)
Definition os_path_exists (s : string) : M bool :=
  λ w, (Val (exists_at s (fs w)), w).

(** [Path.exists()] *)
Definition path_exists (p : path) : M bool :=
  λ w, (Val (match walk p (fs w) with inl _ => false | inr _ => true end), w).

(** [Path.mkdir()]: the parent must exist, the entry must not. *)
Definition path_mkdir (p : path) : M unit :=
  fs_op p (update p (λ o, match o with
                          | None => inr (Some (Dir ∅))
                          | Some _ => inl EEXIST
                          end)).

(** [shutil.rmtree(p)]: removes a directory and all below it. *)
Definition shutil_rmtree (p : path) : M unit :=
  fs_op p (update p (λ o, match o with
                          | None => inl ENOENT
                          | Some (File _) => inl ENOTDIR
                          | Some (Dir _) => inr None
                          end)).

(** A chain of fresh empty directories, one below the other. *)
Fixpoint fresh_dirs (p : path) : node :=
  match p with
  | [] => Dir ∅
  | x :: p' => Dir {[x := fresh_dirs p']}
  end.

(** [os.makedirs(p, exist_ok=...)]: creates the missing directories on
    the way; an existing directory at [p] is an error unless [exist_ok],
    and a file on the way or at [p] always is.  These are the failures
    that the shape of the tree decides; the call can also fail for what
    the tree does not show (see the conventions above). *)
Fixpoint makedirs (exist_ok : bool) (p : path) (n : node) : errno + node :=
  match p with
  | [] =>
      match n with
      | Dir _ => if exist_ok then inr n else inl EEXIST
      | File _ => inl EEXIST
      end
  | x :: p' =>
      match n with
      | File _ => inl ENOTDIR
      | Dir m =>
          match m !! x with
          | None => inr (Dir (<[x := fresh_dirs p']> m))
          | Some c =>
              match makedirs exist_ok p' c with
              | inl e => inl e
              | inr c' => inr (Dir (<[x := c']> m))
              end
          end
      end
  end.

Definition os_makedirs (p : path) (exist_ok : bool) : M unit :=
  fs_op p (makedirs exist_ok p).

(** The write half of [open(p, "wb")] / [open(p, "w")] followed by one
    [write]: creates or truncates the file. *)
Definition write_bytes (p : path) (c : string) : M unit :=
  fs_op p (update p (λ o, match o with
                          | Some (Dir _) => inl EISDIR
                          | _ => inr (Some (File c))
                          end)).

(** [open(p, "rb").read()] *)
Definition read_bytes (p : path) : M string :=
  λ w, match walk p (fs w) with
       | inl e => (Exc (OSError e p), w)
       | inr (Dir _) => (Exc (OSError EISDIR p), w)
       | inr (File c) => (Val c, w)
       end.

(** [shutil.copytree(src, dst)]: [src] is listed first, then [dst] is
    created (it must not exist) and receives a copy of what is below
    [src]. *)
Definition shutil_copytree (src dst : path) : M unit :=
  λ w, match walk src (fs w) with
       | inl e => (Exc (OSError e src), w)
       | inr (File _) => (Exc (OSError ENOTDIR src), w)
       | inr (Dir t) =>
           (os_makedirs dst false;;
            fs_op dst (update dst (λ _, inr (Some (Dir t))))) w
       end.

(** [shutil.copy2(src, dst)]: a directory as [dst] stands for the entry
    of [src]'s name in it; copying an existing file onto itself is
    refused; the content is copied (the metadata that [copy2] also
    copies is not part of the model). *)
Definition shutil_copy2 (src dst : path) : M unit :=
  λ w, let dst' :=
         if is_dir dst (fs w) then (dst ++ [basename src])%list else dst in
       if bool_decide (src = dst') && is_file src (fs w)
       then (Exc (SameFileError src dst'), w)
       else (c ← read_bytes src; write_bytes dst' c) w.

(** ** Text-mode I/O *)

Definition CR : ascii := "013"%char.
Definition LF : ascii := "010"%char.

(** Universal newlines, the default of [open(p, "r")]: ["\r\n"] and a
    lone ["\r"] are read as ["\n"]. *)
Fixpoint universal_newlines (s : string) : string :=
  match s with
  | EmptyString => EmptyString
  | String c s' =>
      if Ascii.eqb c CR then
        match s' with
        | String d s'' =>
            if Ascii.eqb d LF then String LF (universal_newlines s'')
            else String LF (universal_newlines s')
        | EmptyString => String LF EmptyString
        end
      else String c (universal_newlines s')
  end.

(** Does the text hold a carriage return? *)
Fixpoint has_cr (s : string) : bool :=
  match s with
  | EmptyString => false
  | String c s' => Ascii.eqb c CR || has_cr s'
  end.

Definition in_range (lo hi : N) (c : ascii) : bool :=
  ((lo <=? N_of_ascii c) && (N_of_ascii c <=? hi))%N.

Definition cont : ascii → bool := in_range 128 191.

(** Strict UTF-8, as Python's decoder accepts it: shortest forms only,
    no surrogates, nothing above U+10FFFF. *)
Fixpoint utf8_valid (s : string) : bool :=
  match s with
  | EmptyString => true
  | String a s1 =>
      if in_range 0 127 a then utf8_valid s1
      else
        match s1 with
        | EmptyString => false
        | String b s2 =>
            if in_range 194 223 a then cont b && utf8_valid s2
            else
              match s2 with
              | EmptyString => false
              | String c s3 =>
                  if in_range 224 239 a then
                    (if in_range 224 224 a then in_range 160 191 b
                     else if in_range 237 237 a then in_range 128 159 b
                     else cont b)
                    && cont c && utf8_valid s3
                  else
                    match s3 with
                    | EmptyString => false
                    | String d s4 =>
                        in_range 240 244 a
                        && (if in_range 240 240 a then in_range 144 191 b
                            else if in_range 244 244 a then in_range 128 143 b
                            else cont b)
                        && cont c && cont d && utf8_valid s4
                    end
              end
        end
  end.

(** [open(p, "r").read()] *)
Definition read_text (p : path) : M string :=
  c ← read_bytes p;
  if utf8_valid c then mret (universal_newlines c)
  else raise (UnicodeDecodeError c).

(** [open(p, "w").write(s)] *)
Definition write_text (p : path) (s : string) : M unit := write_bytes p s.

(** ** Listing a tree on standard output *)

(** Is there a regular file at the node or below it? *)
Fixpoint holds_file (n : node) : bool :=
  match n with
  | File _ => true
  | Dir m => map_fold (λ _ c found, holds_file c || found) false m
  end.

(** Is there, below the node, a regular file whose path from the node
    has a name that is not valid UTF-8?  The line of such a file cannot
    be written to standard output.  A directory is not listed: its name
    counts only through the files below it. *)
Fixpoint unprintable (n : node) : bool :=
  match n with
  | File _ => false
  | Dir m =>
      map_fold
        (λ name c found,
           unprintable c || (holds_file c && negb (utf8_valid name)) || found)
        false m
  end.

(** [print(header)] and then
    [for item in sorted(t.rglob("*")): if item.is_file(): print(...)],
    one line with the path from [t] and the size of every regular file
    below [t].  The lines are one entry of the output, which holds the
    tree; the loop stops with [UnicodeEncodeError] at a file whose path
    cannot be encoded, after the lines of the files before it. *)
Definition print_listing (header : string) (t : node) : M unit :=
  λ w, if unprintable t
       then (Exc UnicodeEncodeError, add_stdout (PrintListing header t) w)
       else (Val (), add_stdout (PrintListing header t) w).

(** The world [w] with the entry [name := n] added to the directory
    [top], whose entries were [s], of a root with entries [d]. *)
Definition put (top : string) (d s : gmap string node) (w : World)
    (name : string) (n : node) : World :=
  set_fs (Dir (<[top := Dir (<[name := n]> s)]> d)) w.

(** [repr] of a list of strings that need no escaping:
    [['a', 'b']]. *)
Fixpoint join (sep : string) (l : list string) : string :=
  match l with
  | [] => ""
  | [x] => x
  | x :: l' => x +:+ sep +:+ join sep l'
  end.

Definition repr_list (l : list string) : string :=
  "[" +:+ join ", " (map (λ s, "'" +:+ s +:+ "'") l) +:+ "]".

End Py.

(* ===================================================================== *)
(** * app_hf.py                                                           *)
(* ===================================================================== *)

Module AppHf.
Import Py.

(** [setup_hf_environment()].  [secrets.token_urlsafe(32)] draws from the
    entropy source of the operating system; the token that the call would
    return is the parameter [token_urlsafe_32] (it is used only when the
    branch that generates a secret is taken).  The modes given to
    [os.makedirs] are not part of the file model. *)
Definition setup_hf_environment (token_urlsafe_32 : string)
    : M (string * string) :=
  os_environ_setdefault "OPENHANDS_RUNTIME" "local";;
  os_environ_setdefault "CORS_ALLOWED_ORIGINS" "*";;
  os_environ_setdefault "SERVE_FRONTEND" "false";;
  let file_store_path := "/tmp/openhands" in
  let cache_dir := "/tmp/cache" in
  os_makedirs (parse file_store_path) true;;
  os_makedirs (parse cache_dir) true;;
  os_environ_setdefault "FILE_STORE_PATH" file_store_path;;
  os_environ_setdefault "CACHE_DIR" cache_dir;;
  jwt ← os_getenv "JWT_SECRET";
  (if negb (truthy jwt) then
     let jwt_secret := token_urlsafe_32 in
     os_environ_setitem "JWT_SECRET" jwt_secret;;
     print "🔐 Generated JWT secret for session"
   else mret ());;
  os_environ_setdefault "DISABLE_SECURITY" "true";;
  os_environ_setdefault "SANDBOX_RUNTIME_CONTAINER_IMAGE" "";;
  os_environ_setdefault "SANDBOX_USER_ID" "1000";;
  os_environ_setdefault "WORKSPACE_BASE" "/tmp/workspace";;
  os_environ_setdefault "OPENHANDS_DISABLE_AUTH" "true";;
  os_environ_setdefault "ENABLE_AUTO_LINT" "false";;
  os_environ_setdefault "ENABLE_SECURITY_ANALYSIS" "false";;
  os_environ_setdefault "SETTINGS_STORE_TYPE" "memory";;
  os_environ_setdefault "SECRETS_STORE_TYPE" "memory";;
  os_environ_setdefault "DEFAULT_LLM_MODEL"
    "openrouter/anthropic/claude-3-haiku-20240307";;
  os_environ_setdefault "DEFAULT_LLM_BASE_URL" "https://openrouter.ai/api/v1";;
  os_environ_setdefault "SKIP_SETTINGS_MODAL" "true";;
  os_environ_setdefault "DEFAULT_AGENT" "CodeActAgent";;
  os_environ_setdefault "DEFAULT_LANGUAGE" "en";;
  os_environ_setdefault "CONFIRMATION_MODE" "false";;
  os_environ_setdefault "ENABLE_AUTO_LINT" "false";;
  os_environ_setdefault "MAX_ITERATIONS" "30";;
  os_environ_setdefault "MAX_BUDGET_PER_TASK" "10.0";;
  let workspace_dir := "/tmp/workspace" in
  os_makedirs (parse workspace_dir) true;;
  mret (file_store_path, cache_dir).

(** The defaulting table: every [os.environ.setdefault(option, default)]
    of [setup_hf_environment], in the order of the calls.  The session
    secret is not in it: it has no fixed default and its own rule. *)
Definition defaults_before_secret : list (string * string) :=
  [ ("OPENHANDS_RUNTIME", "local");
    ("CORS_ALLOWED_ORIGINS", "*");
    ("SERVE_FRONTEND", "false");
    ("FILE_STORE_PATH", "/tmp/openhands");
    ("CACHE_DIR", "/tmp/cache") ].

Definition defaults_after_secret : list (string * string) :=
  [ ("DISABLE_SECURITY", "true");
    ("SANDBOX_RUNTIME_CONTAINER_IMAGE", "");
    ("SANDBOX_USER_ID", "1000");
    ("WORKSPACE_BASE", "/tmp/workspace");
    ("OPENHANDS_DISABLE_AUTH", "true");
    ("ENABLE_AUTO_LINT", "false");
    ("ENABLE_SECURITY_ANALYSIS", "false");
    ("SETTINGS_STORE_TYPE", "memory");
    ("SECRETS_STORE_TYPE", "memory");
    ("DEFAULT_LLM_MODEL", "openrouter/anthropic/claude-3-haiku-20240307");
    ("DEFAULT_LLM_BASE_URL", "https://openrouter.ai/api/v1");
    ("SKIP_SETTINGS_MODAL", "true");
    ("DEFAULT_AGENT", "CodeActAgent");
    ("DEFAULT_LANGUAGE", "en");
    ("CONFIRMATION_MODE", "false");
    ("ENABLE_AUTO_LINT", "false");
    ("MAX_ITERATIONS", "30");
    ("MAX_BUDGET_PER_TASK", "10.0") ].

Definition defaulting_table : list (string * string) :=
  defaults_before_secret ++ defaults_after_secret.

(** The rule of the session secret: a value that is set and not empty is
    kept, anything else is replaced by the fresh token. *)
Definition resolve_secret (token : string) (preset : option string) : string :=
  match preset with
  | Some s => if String.eqb s "" then token else s
  | None => token
  end.

(** The three directories of the provisioner. *)
Definition provisioned_dirs : list path :=
  [ ["tmp"; "openhands"]; ["tmp"; "cache"]; ["tmp"; "workspace"] ].

(** All the prefixes of a path, the empty one and the path itself
    included. *)
Fixpoint prefixes (p : path) : list path :=
  [] :: match p with
        | [] => []
        | x :: p' => map (cons x) (prefixes p')
        end.

(** A path can be made a directory when no file sits on the way or at
    its end. *)
Definition creatable (p : path) (n : node) : bool :=
  forallb (λ q, negb (is_file q n)) (prefixes p).

(** The line that reports a generated secret. *)
Definition generated_line : line :=
  Print "🔐 Generated JWT secret for session".

(** The environment that a run of [setup_hf_environment] leaves, as a
    function of the environment it starts from. *)
Definition provisioned (token : string) (env : gmap string string)
    : gmap string string :=
  let sd := λ (e : gmap string string) (kv : string * string),
              setdefault kv.1 kv.2 e in
  let env1 := foldl sd env defaults_before_secret in
  let env2 := if truthy (env1 !! "JWT_SECRET") then env1
              else <["JWT_SECRET" := token]> env1 in
  foldl sd env2 defaults_after_secret.

(** The world that a run without error leaves, given the tree [n] that
    the three [os.makedirs] calls produce. *)
Definition after_setup (token : string) (w : World) (n : node) : World :=
  {| environ := provisioned token (environ w);
     fs := n;
     stdout := stdout w ++
       (if truthy (environ w !! "JWT_SECRET") then [] else [generated_line]) |}.

(** Sample inputs: a token as [secrets.token_urlsafe(32)] returns them
    (43 URL-safe characters), an operator who has set the session secret
    to the empty string, and one who has chosen another file store. *)
Definition a_token : string := "Zk3vYw0q1PpXn7uJ5m2RkT9dLs8aHcVe4bGf6oNiQyU".

Definition another_token : string :=
  "p0Qe7Rj2sLx9WbT4cNf6uYh1ZgKd8Vm3aIo5EtUrCwA".

Definition empty_secret_world : World :=
  {| environ := {[ "JWT_SECRET" := "" ]}; fs := Dir ∅; stdout := [] |}.

Definition operator_world : World :=
  {| environ := <["FILE_STORE_PATH" := "/data/store"]>
                  (<["CACHE_DIR" := "/data/cache"]>
                  {[ "WORKSPACE_BASE" := "/data/work" ]});
     fs := Dir {[ "tmp" := Dir ∅ ]};
     stdout := [] |}.

(** The three defaults that are set before the first [os.makedirs]. *)
Definition defaults_before_dirs : list (string * string) :=
  [ ("OPENHANDS_RUNTIME", "local");
    ("CORS_ALLOWED_ORIGINS", "*");
    ("SERVE_FRONTEND", "false") ].

(** [os.environ.setdefault] for every entry of a list, in order. *)
Definition setdefaults (l : list (string * string))
    (env : gmap string string) : gmap string string :=
  foldl (λ e kv, setdefault kv.1 kv.2 e) env l.

(** The world in which [setup_hf_environment] reaches its first
    [os.makedirs]. *)
Definition before_dirs (w : World) : World :=
  set_environ (setdefaults defaults_before_dirs) w.

(** Sample trees: a regular file where the file store shall be, a file
    of the operator in [/tmp], and a regular file where the workspace
    shall be. *)
Definition blocked_store_world : World :=
  {| environ := ∅;
     fs := Dir {[ "tmp" := Dir {[ "openhands" := File "x" ]} ]};
     stdout := [] |}.

Definition notes_world : World :=
  {| environ := ∅;
     fs := Dir {[ "tmp" := Dir {[ "notes.txt" := File "keep" ]} ]};
     stdout := [] |}.

Definition blocked_workspace_world : World :=
  {| environ := ∅;
     fs := Dir {[ "tmp" := Dir {[ "workspace" := File "x" ]} ]};
     stdout := [] |}.

End AppHf.

(* ===================================================================== *)
(** * test_hf_deploy.py                                                   *)
(* ===================================================================== *)

Module Deploy.
Import Py.

Definition nl : string := String LF "".

Definition required_files : list string :=
  [ "openhands/";
    "app_hf.py";
    "requirements.txt";
    "Dockerfile_HF";
    "README_HF.md" ].

(** The loop of [test_file_preparation] over the files still to check;
    [missing_files] is the list built so far. *)
Fixpoint check_files (files : list string) (missing_files : list string)
    : M (list string) :=
  match files with
  | [] => mret missing_files
  | file_path :: files' =>
      found ← os_path_exists file_path;
      if negb found then check_files files' (missing_files ++ [file_path])
      else print ("✅ " +:+ file_path);; check_files files' missing_files
  end.

(** [test_file_preparation()] *)
Definition test_file_preparation : M bool :=
  print "🔍 Checking required files...";;
  missing_files ← check_files required_files [];
  match missing_files with
  | _ :: _ =>
      print ("❌ Missing files: " +:+ repr_list missing_files);;
      mret false
  | [] =>
      print "✅ All required files found!";;
      mret true
  end.

(** The metadata block that opens the staged README. *)
Definition front_matter : string :=
"---
title: OpenHands Backend API
emoji: 🤖
colorFrom: blue
colorTo: purple
sdk: docker
pinned: false
license: mit
app_port: 7860
---

".

(** [hf_space_dir / name] *)
Definition joinpath (dir : path) (name : string) : path :=
  (dir ++ parse name)%list.

(** The body of the [try] block of [simulate_workflow].  The loop that
    prints one line per staged file reads the scratch tree only; it is
    one [PrintListing] entry that holds the tree it walks, and it raises
    when the path of a staged file cannot be printed. *)
Definition stage_files (hf_space_dir : path) : M bool :=
  print "📁 Copying openhands folder...";;
  shutil_copytree (parse "./openhands") (joinpath hf_space_dir "openhands");;
  print "📄 Copying app files...";;
  shutil_copy2 (parse "./app_hf.py") (joinpath hf_space_dir "app_hf.py");;
  shutil_copy2 (parse "./app_hf.py") (joinpath hf_space_dir "app.py");;
  print "📋 Copying requirements...";;
  shutil_copy2 (parse "./requirements.txt")
    (joinpath hf_space_dir "requirements.txt");;
  print "🐳 Copying Dockerfile...";;
  shutil_copy2 (parse "./Dockerfile_HF") (joinpath hf_space_dir "Dockerfile");;
  print "📖 Creating README with metadata...";;
  let readme_content := front_matter in
  template ← read_text (parse "README_HF.md");
  let readme_content := readme_content +:+ template in
  write_text (joinpath hf_space_dir "README.md") readme_content;;
  env_there ← os_path_exists ".env.hf";
  (if env_there : bool then
     print "⚙️ Copying environment template...";;
     shutil_copy2 (parse ".env.hf") (joinpath hf_space_dir ".env")
   else mret ());;
  (λ w, print_listing (nl +:+ "📊 Files prepared in test_hf_space:")
          (match walk hf_space_dir (fs w) with
           | inr t => t
           | inl _ => Dir ∅
           end) w);;
  print (nl +:+ "✅ Simulation completed! Check test_hf_space directory");;
  mret true.

(** [simulate_workflow()]: the scratch directory is reset, then the
    [try] block runs under its handler. *)
Definition simulate_workflow : M bool :=
  print (nl +:+ "🚀 Simulating workflow file preparation...");;
  let hf_space_dir := parse "./test_hf_space" in
  there ← path_exists hf_space_dir;
  (if there : bool then shutil_rmtree hf_space_dir else mret ());;
  path_mkdir hf_space_dir;;
  try_except
    (stage_files hf_space_dir)
    (λ e,
     print_exn "❌ Error during simulation: " e;;
     mret false).

(** What the staging stage reads from the invocation directory: the
    application-code tree, the contents of the four required files and
    of the optional environment template. *)
Record sources : Type := mkSources {
  openhands_tree : gmap string node;
  app_hf_py : string;
  requirements_txt : string;
  dockerfile_hf : string;
  readme_hf_md : string;
  env_hf : option string
}.

(** The sources as found among the entries [d] of the invocation
    directory: every required one has the right kind and the template is
    text; the environment template may be absent but is no directory. *)
Definition find_sources (d : gmap string node) : option sources :=
  match d !! "openhands" with
  | Some (Dir t) =>
    match d !! "app_hf.py" with
    | Some (File a) =>
      match d !! "requirements.txt" with
      | Some (File r) =>
        match d !! "Dockerfile_HF" with
        | Some (File k) =>
          match d !! "README_HF.md" with
          | Some (File m) =>
            if utf8_valid m then
              match d !! ".env.hf" with
              | Some (Dir _) => None
              | Some (File e) => Some (mkSources t a r k m (Some e))
              | None => Some (mkSources t a r k m None)
              end
            else None
          | _ => None
          end
        | _ => None
        end
      | _ => None
      end
    | _ => None
    end
  | _ => None
  end.

(** The entries of the scratch directory that staging builds from the
    sources. *)
Definition staged (src : sources) : gmap string node :=
  let required :=
    <["README.md" :=
        File (front_matter +:+ universal_newlines (readme_hf_md src))]>
   (<["Dockerfile" := File (dockerfile_hf src)]>
   (<["requirements.txt" := File (requirements_txt src)]>
   (<["app.py" := File (app_hf_py src)]>
   (<["app_hf.py" := File (app_hf_py src)]>
   (<["openhands" := Dir (openhands_tree src)]> ∅))))) in
  match env_hf src with
  | Some e => <[".env" := File e]> required
  | None => required
  end.

(** The lines that a staging run without error prints. *)
Definition staging_lines (src : sources) : list line :=
  [ Print "📁 Copying openhands folder...";
    Print "📄 Copying app files...";
    Print "📋 Copying requirements...";
    Print "🐳 Copying Dockerfile...";
    Print "📖 Creating README with metadata..." ]
  ++ (match env_hf src with
      | Some _ => [Print "⚙️ Copying environment template..."]
      | None => []
      end)
  ++ [ PrintListing (nl +:+ "📊 Files prepared in test_hf_space:")
         (Dir (staged src));
       Print (nl +:+ "✅ Simulation completed! Check test_hf_space directory") ].

(** [check_hf_token()] *)
Definition check_hf_token : M bool :=
  print (nl +:+ "🔑 Checking Hugging Face token...");;
  token ← os_getenv "HF_TOKEN";
  if negb (truthy token) then
    print "⚠️ HF_TOKEN not found in environment variables";;
    print "   For actual deployment, set this in GitHub Secrets";;
    mret false
  else
    print "✅ HF_TOKEN found!";;
    mret true.

(** [main()] *)
Definition main : M unit :=
  print ("🧪 Testing Hugging Face Space Deployment Setup" +:+ nl);;
  ok1 ← test_file_preparation;
  if negb ok1 then
    print (nl +:+ "❌ File preparation test failed!");;
    mret ()
  else
    ok2 ← simulate_workflow;
    if negb ok2 then
      print (nl +:+ "❌ Workflow simulation failed!");;
      mret ()
    else
      check_hf_token;;
      print (nl +:+ "🎉 All tests passed!");;
      print (nl +:+ "📝 Next steps:");;
      print "1. Set HF_TOKEN in GitHub repository secrets";;
      print "2. Push changes to main branch to trigger auto-deploy";;
      print "3. Or run workflow manually from GitHub Actions tab";;
      mret ().

(** The first line of [simulate_workflow]. *)
Definition simulating_line : line :=
  Print (nl +:+ "🚀 Simulating workflow file preparation...").

(** The world in which the [try] block starts: the scratch directory is
    there and empty.  [d] holds the entries of the invocation
    directory. *)
Definition post_reset (w : World) (d : gmap string node) : World :=
  {| environ := environ w;
     fs := Dir (<["test_hf_space" := Dir ∅]> d);
     stdout := stdout w ++ [simulating_line] |}.

(** The world that a staging run without error leaves. *)
Definition staged_world (w : World) (d : gmap string node) (src : sources)
    : World :=
  {| environ := environ w;
     fs := Dir (<["test_hf_space" := Dir (staged src)]> d);
     stdout := stdout w ++ simulating_line :: staging_lines src |}.

(** The line with which the handler reports a caught exception. *)
Definition failure_report (e : exn) : line :=
  PrintExn "❌ Error during simulation: " e.

(** The first line of [main] and the lines with which it stops after a
    failed stage. *)
Definition banner_line : line :=
  Print ("🧪 Testing Hugging Face Space Deployment Setup" +:+ nl).

Definition stage1_failed_line : line :=
  Print (nl +:+ "❌ File preparation test failed!").

Definition stage2_failed_line : line :=
  Print (nl +:+ "❌ Workflow simulation failed!").

(** The [✅] line of a required file that is there. *)
Definition found_line (file_path : string) : line :=
  Print ("✅ " +:+ file_path).

(** The last line of [test_file_preparation], given the missing files. *)
Definition verdict_line (missing_files : list string) : line :=
  match missing_files with
  | [] => Print "✅ All required files found!"
  | _ :: _ => Print ("❌ Missing files: " +:+ repr_list missing_files)
  end.

(** The lines of [check_hf_token], given the value of [HF_TOKEN]. *)
Definition credential_lines (token : option string) : list line :=
  Print (nl +:+ "🔑 Checking Hugging Face token...") ::
  (if truthy token then [ Print "✅ HF_TOKEN found!" ]
   else [ Print "⚠️ HF_TOKEN not found in environment variables";
          Print "   For actual deployment, set this in GitHub Secrets" ]).

(** The lines with which [main] reports overall success. *)
Definition success_lines : list line :=
  [ Print (nl +:+ "🎉 All tests passed!");
    Print (nl +:+ "📝 Next steps:");
    Print "1. Set HF_TOKEN in GitHub repository secrets";
    Print "2. Push changes to main branch to trigger auto-deploy";
    Print "3. Or run workflow manually from GitHub Actions tab" ].

(** The names of the regular files that staging leaves at the top of
    the scratch directory. *)
Definition staged_files (src : sources) : list string :=
  [ "app_hf.py"; "app.py"; "requirements.txt"; "Dockerfile"; "README.md" ]
  ++ match env_hf src with Some _ => [ ".env" ] | None => [] end.

(** Sample invocation directories: a complete one whose application-code
    directory holds one file; the same with an environment template; with
    a template that has Windows line endings; with a regular file in the
    place of the scratch directory; with a template that is no UTF-8
    text; without the application-code directory; and one that lacks
    two required entries. *)
Definition sample_dir : gmap string node :=
  <["openhands" := Dir {[ "server.py" := File "app = None" ]}]>
 (<["app_hf.py" := File "import os"]>
 (<["requirements.txt" := File "uvicorn"]>
 (<["Dockerfile_HF" := File "FROM python:3.12"]>
  {[ "README_HF.md" := File "# OpenHands" ]}))).

Definition sample_sources : sources :=
  {| openhands_tree := {[ "server.py" := File "app = None" ]};
     app_hf_py := "import os";
     requirements_txt := "uvicorn";
     dockerfile_hf := "FROM python:3.12";
     readme_hf_md := "# OpenHands";
     env_hf := None |}.

Definition sample_world : World :=
  {| environ := ∅; fs := Dir sample_dir; stdout := [] |}.

Definition env_world : World :=
  {| environ := {[ "HF_TOKEN" := "hf_secret" ]};
     fs := Dir (<[".env.hf" := File "LLM_MODEL=x"]> sample_dir);
     stdout := [] |}.

Definition crlf_template : string :=
  "# OpenHands" +:+ String CR (String LF "Backend").

Definition crlf_world : World :=
  {| environ := ∅;
     fs := Dir (<["README_HF.md" := File crlf_template]> sample_dir);
     stdout := [] |}.

Definition blocked_world : World :=
  {| environ := ∅;
     fs := Dir (<["test_hf_space" := File "notes"]> sample_dir);
     stdout := [] |}.

Definition undecodable_world : World :=
  {| environ := ∅;
     fs := Dir (<["README_HF.md" := File (String "255"%char "")]> sample_dir);
     stdout := [] |}.

Definition no_code_world : World :=
  {| environ := ∅; fs := Dir (delete "openhands" sample_dir); stdout := [] |}.

Definition incomplete_world : World :=
  {| environ := ∅;
     fs := Dir (<["openhands" := File "not a directory"]>
                 (delete "README_HF.md" sample_dir));
     stdout := [] |}.




(** The world that the two stages of [main] leave on the complete
    sample. *)
Definition sample_staged_world : World :=
  (simulate_workflow
     (test_file_preparation (add_stdout banner_line sample_world)).2).2.

(** The required files other than the application-code directory. *)
Definition required_plain : list string :=
  [ "app_hf.py"; "requirements.txt"; "Dockerfile_HF"; "README_HF.md" ].

(** More sample invocation directories: a directory in the place of the
    dependency manifest; and a complete one with the scratch directory
    of an earlier run, which holds a file of its own. *)
Definition manifest_dir_world : World :=
  {| environ := ∅;
     fs := Dir (<["requirements.txt" := Dir ∅]> sample_dir);
     stdout := [] |}.


End Deploy.

(* ===================================================================== *)
(** * Facts about the runtime model                                       *)
(* ===================================================================== *)

Module PyFacts.
Import Py.

(** ** Environment *)

Lemma setdefault_union k v (env : gmap string string) :
  setdefault k v env = env ∪ {[k := v]}.
Proof.
  unfold setdefault. apply map_eq. intros i. rewrite lookup_union.
  destruct (env !! k) as [x|] eqn:E;
    destruct (decide (k = i)) as [->|Hne];
    rewrite ?E, ?lookup_insert_eq, ?lookup_singleton_eq,
      ?lookup_insert_ne, ?lookup_singleton_ne by done;
    try done; by destruct (env !! i).
Qed.

Lemma setdefault_present k v (env : gmap string string) :
  is_Some (env !! k) → setdefault k v env = env.
Proof. intros [x E]. unfold setdefault. by rewrite E. Qed.

Lemma foldl_setdefault l (env : gmap string string) :
  foldl (λ e kv, setdefault kv.1 kv.2 e) env l = env ∪ list_to_map l.
Proof.
  revert env. induction l as [|[k v] l IH]; intros env; simpl.
  - by rewrite (right_id_L ∅ (∪)).
  - rewrite IH, setdefault_union, <- (assoc_L (∪)). f_equal.
    by rewrite insert_union_singleton_l.
Qed.

Lemma foldl_setdefault_present l (env : gmap string string) :
  (∀ k v, (k, v) ∈ l → is_Some (env !! k)) →
  foldl (λ e kv, setdefault kv.1 kv.2 e) env l = env.
Proof.
  induction l as [|[k v] l IH]; intros H; simpl; [done|].
  rewrite setdefault_present by (eapply H; left).
  apply IH. intros k' v' Hin. eapply H. right. exact Hin.
Qed.

(** ** [makedirs] *)

Lemma makedirs_dir b p n n' : makedirs b p n = inr n' → ∃ m, n' = Dir m.
Proof.
  destruct p as [|x p]; simpl; destruct n as [c|m]; try done.
  - destruct b; [|done]. intros [= <-]. eauto.
  - destruct (m !! x) as [c|]; [|intros [= <-]; eauto].
    destruct (makedirs b p c); [done|]. intros [= <-]. eauto.
Qed.

Lemma walk_fresh_dirs p q n : walk q (fresh_dirs p) = inr n → ∃ m, n = Dir m.
Proof.
  revert q. induction p as [|x p IH]; intros [|y q]; simpl.
  - intros [= <-]; eauto.
  - done.
  - intros [= <-]; eauto.
  - destruct (decide (x = y)) as [->|Hne].
    + rewrite lookup_singleton_eq. apply IH.
    + by rewrite lookup_singleton_ne.
Qed.

Lemma is_dir_fresh_dirs p : is_dir p (fresh_dirs p) = true.
Proof.
  unfold is_dir. induction p as [|x p IH]; simpl; [done|].
  by rewrite lookup_singleton_eq.
Qed.

(** After [makedirs], the path is a directory. *)
Lemma makedirs_is_dir b p n n' : makedirs b p n = inr n' → is_dir p n' = true.
Proof.
  revert n n'. induction p as [|x p IH]; intros n n'; simpl.
  - intros H. by destruct (makedirs_dir b [] n n' H) as [m ->].
  - destruct n as [c|m]; [done|]. destruct (m !! x) as [c|] eqn:E.
    + destruct (makedirs b p c) as [e|c'] eqn:E'; [done|]. intros [= <-].
      unfold is_dir; simpl. rewrite lookup_insert_eq. by apply (IH c).
    + intros [= <-]. unfold is_dir; simpl. rewrite lookup_insert_eq.
      apply is_dir_fresh_dirs.
Qed.

(** [makedirs] neither makes nor removes a file. *)
Lemma makedirs_is_file b p n n' q :
  makedirs b p n = inr n' → is_file q n' = is_file q n.
Proof.
  unfold is_file. revert n n' q.
  induction p as [|x p IH]; intros n n' q; simpl.
  - destruct n; [done|]. destruct b; [|done]. by intros [= <-].
  - destruct n as [c|m]; [done|]. destruct (m !! x) as [c|] eqn:E.
    + destruct (makedirs b p c) as [e|c'] eqn:E'; [done|]. intros [= <-].
      destruct q as [|y q]; simpl; [done|].
      destruct (decide (x = y)) as [->|Hne].
      * rewrite lookup_insert_eq, E. by apply IH.
      * by rewrite lookup_insert_ne.
    + intros [= <-]. destruct q as [|y q]; simpl; [done|].
      destruct (decide (x = y)) as [->|Hne].
      * rewrite lookup_insert_eq, E.
        destruct (walk q (fresh_dirs p)) as [e|k] eqn:W; [done|].
        by destruct (walk_fresh_dirs _ _ _ W) as [m' ->].
      * by rewrite lookup_insert_ne.
Qed.

(** [makedirs] keeps the directories that are there. *)
Lemma makedirs_preserves_dir b p n n' q :
  makedirs b p n = inr n' → is_dir q n = true → is_dir q n' = true.
Proof.
  unfold is_dir. revert n n' q.
  induction p as [|x p IH]; intros n n' q; simpl.
  - destruct n; [done|]. destruct b; [|done]. by intros [= <-].
  - destruct n as [c|m]; [done|]. destruct (m !! x) as [c|] eqn:E.
    + destruct (makedirs b p c) as [e|c'] eqn:E'; [done|]. intros [= <-].
      destruct q as [|y q]; simpl; [done|].
      destruct (decide (x = y)) as [->|Hne].
      * rewrite lookup_insert_eq, E. by apply IH.
      * by rewrite lookup_insert_ne.
    + intros [= <-]. destruct q as [|y q]; simpl; [done|].
      destruct (decide (x = y)) as [->|Hne].
      * by rewrite E.
      * by rewrite lookup_insert_ne.
Qed.

(** With [exist_ok], [makedirs] on a directory changes nothing. *)
Lemma makedirs_exist_ok p n : is_dir p n = true → makedirs true p n = inr n.
Proof.
  unfold is_dir. revert n. induction p as [|x p IH]; intros n; simpl.
  - by destruct n.
  - destruct n as [c|m]; [done|]. destruct (m !! x) as [c|] eqn:E; [|done].
    intros H. rewrite (IH c H). by rewrite insert_id.
Qed.

(** [makedirs] succeeds when no file is in its way. *)
Lemma makedirs_succeeds p n :
  (∀ q, q `prefix_of` p → is_file q n = false) →
  ∃ n', makedirs true p n = inr n'.
Proof.
  unfold is_file. revert n. induction p as [|x p IH]; intros n H; simpl.
  - destruct n as [c|m]; [|eauto]. by specialize (H [] (prefix_nil _)).
  - destruct n as [c|m]; [by specialize (H [] (prefix_nil _))|].
    destruct (m !! x) as [c|] eqn:E; [|eauto].
    destruct (IH c) as [c' ->]; [|eauto].
    intros q Hq. specialize (H (x :: q) (prefix_cons _ _ _ Hq)). simpl in H.
    by rewrite E in H.
Qed.

(** The directories on the way to a directory are directories. *)
Lemma is_dir_prefix p q n :
  q `prefix_of` p → is_dir p n = true → is_dir q n = true.
Proof.
  unfold is_dir. revert q n. induction p as [|x p IH]; intros q n Hq.
  - by apply prefix_nil_inv in Hq as ->.
  - destruct q as [|y q]; simpl.
    + destruct n as [c|m]; [done|]. done.
    + apply prefix_cons_inv_1 in Hq as Hxy. apply prefix_cons_inv_2 in Hq.
      subst y. destruct n as [c|m]; [done|].
      destruct (m !! x) as [c|]; [|done]. by apply IH.
Qed.

Lemma walk_fresh_dirs_prefix p q n :
  walk q (fresh_dirs p) = inr n → q `prefix_of` p.
Proof.
  revert q. induction p as [|x p IH]; intros [|y q]; simpl.
  - done.
  - done.
  - intros _. apply prefix_nil.
  - destruct (decide (x = y)) as [->|Hne].
    + rewrite lookup_singleton_eq. intros H. apply prefix_cons, IH, H.
    + by rewrite lookup_singleton_ne.
Qed.

(** The only directories that [makedirs] makes are the one it is asked
    for and those on the way to it. *)
Lemma makedirs_new_dir b p n n' q :
  makedirs b p n = inr n' → is_dir q n' = true →
  is_dir q n = true ∨ q `prefix_of` p.
Proof.
  unfold is_dir. revert n n' q.
  induction p as [|x p IH]; intros n n' q; simpl.
  - destruct n; [done|]. destruct b; [|done]. intros [= <-]. by left.
  - destruct n as [c|m]; [done|]. destruct (m !! x) as [c|] eqn:E.
    + destruct (makedirs b p c) as [e|c'] eqn:E'; [done|]. intros [= <-].
      destruct q as [|y q]; simpl; [by left|].
      destruct (decide (x = y)) as [->|Hne].
      * rewrite lookup_insert_eq, E. intros H.
        destruct (IH _ _ _ E' H) as [?|?]; [by left|right].
        by apply prefix_cons.
      * rewrite lookup_insert_ne by done. by left.
    + intros [= <-]. destruct q as [|y q]; simpl; [by left|].
      destruct (decide (x = y)) as [->|Hne].
      * rewrite lookup_insert_eq, E. intros H. right. apply prefix_cons.
        destruct (walk q (fresh_dirs p)) as [e|k] eqn:W; [done|].
        by eapply walk_fresh_dirs_prefix.
      * rewrite lookup_insert_ne by done. by left.
Qed.

(** ** The listing *)

(** A directory cannot be listed when one of its entries cannot, or
    holds a file and has a name that is not valid UTF-8. *)
Lemma unprintable_dir (m : gmap string node) :
  unprintable (Dir m) = true
  ↔ ∃ name c, m !! name = Some c
      ∧ (unprintable c = true
         ∨ (holds_file c = true ∧ utf8_valid name = false)).
Proof.
  cbn [unprintable].
  apply (map_fold_weak_ind
    (λ (b : bool) (m : gmap string node),
       b = true ↔ ∃ name c, m !! name = Some c
         ∧ (unprintable c = true
            ∨ (holds_file c = true ∧ utf8_valid name = false)))).
  - split; [done|]. by intros (name & c & ? & _).
  - intros k x m' r Hk IH.
    rewrite !orb_true_iff, andb_true_iff, negb_true_iff, IH.
    split.
    + intros [[?|[??]]|(name & c & ? & ?)].
      * exists k, x. rewrite lookup_insert_eq. auto.
      * exists k, x. rewrite lookup_insert_eq. auto.
      * exists name, c. rewrite lookup_insert_ne by congruence. auto.
    + intros (name & c & Hl & H).
      destruct (decide (k = name)) as [->|?].
      * rewrite lookup_insert_eq in Hl. injection Hl as ->. tauto.
      * rewrite lookup_insert_ne in Hl by done. right. eauto.
Qed.

(** ** Worlds *)

Lemma world_eq w1 w2 :
  environ w1 = environ w2 → fs w1 = fs w2 → stdout w1 = stdout w2 → w1 = w2.
Proof. destruct w1, w2; simpl; by intros -> -> ->. Qed.

(** ** Operations into one directory of the tree *)

Lemma partial_alter_Some (k : string) (x : node) (m : gmap string node) :
  partial_alter (λ _, Some x) k m = <[k := x]> m.
Proof. reflexivity. Qed.

Lemma partial_alter_None (k : string) (m : gmap string node) :
  partial_alter (λ _, None) k m = delete k m.
Proof. reflexivity. Qed.

Section scratch.
Variables (top : string) (d s : gmap string node) (w : World).
Hypothesis Hfs : fs w = Dir (<[top := Dir s]> d).

Lemma copytree_into src name :
  src ≠ top → s !! name = None →
  shutil_copytree [src] [top; name] w =
    match d !! src with
    | Some (Dir t) => (Val (), put top d s w name (Dir t))
    | Some (File _) => (Exc (OSError ENOTDIR [src]), w)
    | None => (Exc (OSError ENOENT [src]), w)
    end.
Proof.
  intros Hne Hfree. unfold shutil_copytree. rewrite Hfs. cbn [walk].
  rewrite lookup_insert_ne by done.
  destruct (d !! src) as [[c|t]|]; try done.
  unfold mbind, M_bind, os_makedirs, fs_op. rewrite Hfs. cbn [makedirs].
  rewrite lookup_insert_eq, Hfree. cbn [fresh_dirs set_fs fs update].
  rewrite lookup_insert_eq. unfold put, set_fs. cbn [environ stdout].
  by rewrite partial_alter_Some, !insert_insert_eq.
Qed.

Lemma copy2_into src name :
  src ≠ top → s !! name = None →
  shutil_copy2 [src] [top; name] w =
    match d !! src with
    | Some (File c) => (Val (), put top d s w name (File c))
    | Some (Dir _) => (Exc (OSError EISDIR [src]), w)
    | None => (Exc (OSError ENOENT [src]), w)
    end.
Proof.
  intros Hne Hfree. unfold shutil_copy2, is_dir. rewrite Hfs. cbn [walk].
  rewrite lookup_insert_eq, Hfree.
  rewrite bool_decide_eq_false_2 by done. cbn [andb].
  unfold mbind, M_bind, read_bytes, write_bytes, fs_op. rewrite Hfs.
  cbn [walk].
  rewrite lookup_insert_ne by done.
  destruct (d !! src) as [[c|t]|]; try done.
  rewrite Hfs. cbn [update]. rewrite lookup_insert_eq, Hfree.
  unfold put. by rewrite partial_alter_Some, insert_insert_eq.
Qed.

Lemma write_text_into name c :
  s !! name = None →
  write_text [top; name] c w = (Val (), put top d s w name (File c)).
Proof.
  intros Hfree. unfold write_text, write_bytes, fs_op. rewrite Hfs.
  cbn [update]. rewrite lookup_insert_eq, Hfree.
  unfold put. by rewrite partial_alter_Some, insert_insert_eq.
Qed.

Lemma read_text_from src :
  src ≠ top →
  read_text [src] w =
    match d !! src with
    | Some (File c) =>
        if utf8_valid c then (Val (universal_newlines c), w)
        else (Exc (UnicodeDecodeError c), w)
    | Some (Dir _) => (Exc (OSError EISDIR [src]), w)
    | None => (Exc (OSError ENOENT [src]), w)
    end.
Proof.
  intros Hne. unfold read_text, mbind, M_bind, read_bytes. rewrite Hfs.
  cbn [walk]. rewrite lookup_insert_ne by done.
  destruct (d !! src) as [[c|t]|]; try done.
  by destruct (utf8_valid c).
Qed.

End scratch.

Lemma fs_put top d s w name n :
  fs (put top d s w name n) = Dir (<[top := Dir (<[name := n]> s)]> d).
Proof. done. Qed.

End PyFacts.

(* ===================================================================== *)
(** * The provisioner, [setup_hf_environment]                             *)
(* ===================================================================== *)

Module AppHfFacts.
Import Py PyFacts AppHf.

(** ** Running the function *)

Lemma lookup_foldl_setdefault_other l (env : gmap string string) k :
  k ∉ l.*1 →
  foldl (λ e kv, setdefault kv.1 kv.2 e) env l !! k = env !! k.
Proof.
  intros H. rewrite foldl_setdefault, lookup_union.
  rewrite (not_elem_of_list_to_map_1 _ _ H). by destruct (env !! k).
Qed.

Lemma secret_not_in_before : "JWT_SECRET" ∉ defaults_before_secret.*1.
Proof. cbn. rewrite !elem_of_cons, elem_of_nil. intuition discriminate. Qed.

Lemma secret_not_in_after : "JWT_SECRET" ∉ defaults_after_secret.*1.
Proof. cbn. rewrite !elem_of_cons, elem_of_nil. intuition discriminate. Qed.

Lemma secret_not_in_table : "JWT_SECRET" ∉ defaulting_table.*1.
Proof. cbn. rewrite !elem_of_cons, elem_of_nil. intuition discriminate. Qed.

Ltac run_setup :=
  unfold setup_hf_environment, mbind, M_bind, mret, M_ret,
    os_environ_setdefault, os_makedirs, fs_op, os_getenv,
    os_environ_setitem, print;
  cbn [set_environ environ fs stdout set_fs add_stdout];
  change (parse "/tmp/openhands") with ["tmp"; "openhands"];
  change (parse "/tmp/cache") with ["tmp"; "cache"];
  change (parse "/tmp/workspace") with ["tmp"; "workspace"].

(** The whole behaviour of [setup_hf_environment]: it raises what the
    first failing [os.makedirs] raises, and otherwise returns the two
    constant paths in the world [after_setup]. *)
Lemma setup_run tok w :
  setup_hf_environment tok w =
  match makedirs true ["tmp"; "openhands"] (fs w) with
  | inl e =>
      (Exc (OSError e ["tmp"; "openhands"]), (setup_hf_environment tok w).2)
  | inr n1 =>
    match makedirs true ["tmp"; "cache"] n1 with
    | inl e =>
        (Exc (OSError e ["tmp"; "cache"]), (setup_hf_environment tok w).2)
    | inr n2 =>
      match makedirs true ["tmp"; "workspace"] n2 with
      | inl e =>
          (Exc (OSError e ["tmp"; "workspace"]),
           (setup_hf_environment tok w).2)
      | inr n3 => (Val ("/tmp/openhands", "/tmp/cache"), after_setup tok w n3)
      end
    end
  end.
Proof.
  assert (HJ : truthy (foldl (λ e kv, setdefault kv.1 kv.2 e) (environ w)
                 defaults_before_secret !! "JWT_SECRET")
               = truthy (environ w !! "JWT_SECRET")).
  { by rewrite (lookup_foldl_setdefault_other _ _ _ secret_not_in_before). }
  unfold after_setup, provisioned. simpl foldl in *.
  run_setup.
  destruct (makedirs true ["tmp"; "openhands"] (fs w)) as [e1|n1]; [done|].
  cbn [set_environ environ fs stdout set_fs add_stdout].
  destruct (makedirs true ["tmp"; "cache"] n1) as [e2|n2]; [done|].
  cbn [set_environ environ fs stdout set_fs add_stdout].
  rewrite HJ.
  destruct (truthy (environ w !! "JWT_SECRET"));
    cbn [negb set_environ environ fs stdout set_fs add_stdout];
    destruct (makedirs true ["tmp"; "workspace"] n2) as [e3|n3]; try done.
  by rewrite (right_id_L [] (++)).
Qed.

Lemma setup_returns tok w r w' :
  setup_hf_environment tok w = (Val r, w') →
  ∃ n1 n2,
    makedirs true ["tmp"; "openhands"] (fs w) = inr n1 ∧
    makedirs true ["tmp"; "cache"] n1 = inr n2 ∧
    makedirs true ["tmp"; "workspace"] n2 = inr (fs w') ∧
    r = ("/tmp/openhands", "/tmp/cache") ∧
    w' = after_setup tok w (fs w').
Proof.
  rewrite setup_run.
  destruct (makedirs true ["tmp"; "openhands"] (fs w)) as [e1|n1] eqn:E1;
    [done|].
  destruct (makedirs true ["tmp"; "cache"] n1) as [e2|n2] eqn:E2; [done|].
  destruct (makedirs true ["tmp"; "workspace"] n2) as [e3|n3] eqn:E3; [done|].
  intros [= <- <-]. by exists n1, n2.
Qed.

Lemma setup_leaves_dirs tok w r w' :
  setup_hf_environment tok w = (Val r, w') →
  Forall (λ p, is_dir p (fs w') = true) provisioned_dirs.
Proof.
  intros H.
  destruct (setup_returns _ _ _ _ H) as (n1 & n2 & E1 & E2 & E3 & _ & _).
  unfold provisioned_dirs. repeat constructor.
  - eapply makedirs_preserves_dir; [exact E3|].
    eapply makedirs_preserves_dir; [exact E2|]. by eapply makedirs_is_dir.
  - eapply makedirs_preserves_dir; [exact E3|]. by eapply makedirs_is_dir.
  - by eapply makedirs_is_dir.
Qed.

(** ** The resolved environment *)

Lemma table_functional k v v' :
  (k, v) ∈ defaulting_table → (k, v') ∈ defaulting_table → v = v'.
Proof.
  assert (H : forallb (λ a, forallb (λ b,
                implb (String.eqb a.1 b.1) (String.eqb a.2 b.2))
                defaulting_table) defaulting_table = true)
    by (vm_compute; reflexivity).
  rewrite forallb_forall in H. intros Ha Hb.
  apply list_elem_of_In in Ha, Hb.
  specialize (H _ Ha). rewrite forallb_forall in H. specialize (H _ Hb).
  simpl in H. rewrite String.eqb_refl in H. simpl in H.
  by apply String.eqb_eq.
Qed.

Lemma truthy_resolve_secret tok o :
  tok ≠ "" → truthy (Some (resolve_secret tok o)) = true.
Proof.
  intros H. unfold resolve_secret, truthy. destruct o as [s|].
  - destruct (String.eqb s "") eqn:E; [|by rewrite E].
    apply negb_true_iff, String.eqb_neq, H.
  - apply negb_true_iff, String.eqb_neq, H.
Qed.

Lemma provisioned_secret tok env :
  provisioned tok env !! "JWT_SECRET" =
  Some (resolve_secret tok (env !! "JWT_SECRET")).
Proof.
  unfold provisioned. cbv zeta.
  rewrite (lookup_foldl_setdefault_other _ _ _ secret_not_in_after).
  rewrite (lookup_foldl_setdefault_other _ _ _ secret_not_in_before).
  unfold truthy, resolve_secret. destruct (env !! "JWT_SECRET") as [s|] eqn:E.
  - destruct (String.eqb s ""); cbn [negb].
    + by rewrite lookup_insert_eq.
    + by rewrite (lookup_foldl_setdefault_other _ _ _ secret_not_in_before).
  - by rewrite lookup_insert_eq.
Qed.

Lemma provisioned_other tok env k :
  k ≠ "JWT_SECRET" →
  provisioned tok env !! k = (env ∪ list_to_map defaulting_table) !! k.
Proof.
  intros Hk. unfold provisioned, defaulting_table. cbv zeta.
  rewrite list_to_map_app, (assoc_L (∪)), <- !foldl_setdefault.
  rewrite (foldl_setdefault defaults_after_secret).
  rewrite (foldl_setdefault defaults_after_secret), !lookup_union.
  f_equal. destruct (truthy _); [done|]. by rewrite lookup_insert_ne.
Qed.

Lemma provisioned_default tok env k v :
  (k, v) ∈ defaulting_table →
  provisioned tok env !! k = Some (default v (env !! k)).
Proof.
  intros Hin. rewrite provisioned_other.
  - rewrite lookup_union.
    rewrite (elem_of_list_to_map_1' defaulting_table k v);
      [|intros y Hy; symmetry; by eapply table_functional|done].
    by destruct (env !! k).
  - intros ->. apply secret_not_in_table, list_elem_of_fmap.
    by exists ("JWT_SECRET", v).
Qed.

Lemma provisioned_untouched tok env k :
  k ∉ defaulting_table.*1 → k ≠ "JWT_SECRET" →
  provisioned tok env !! k = env !! k.
Proof.
  intros Hk HJ. rewrite provisioned_other by done.
  rewrite lookup_union, (not_elem_of_list_to_map_1 _ _ Hk).
  by destruct (env !! k).
Qed.

(** A second run finds every option set and the secret in place. *)
Lemma provisioned_fixpoint tok1 tok2 env :
  tok1 ≠ "" →
  provisioned tok2 (provisioned tok1 env) = provisioned tok1 env.
Proof.
  intros Htok. set (env1 := provisioned tok1 env).
  assert (Hall : ∀ l, l ⊆ defaulting_table → ∀ e : gmap string string,
            (∀ k, e !! k = env1 !! k) →
            foldl (λ e kv, setdefault kv.1 kv.2 e) e l = e).
  { intros l Hl e He. apply foldl_setdefault_present. intros k v Hin.
    rewrite He. unfold env1. erewrite provisioned_default; [done|].
    by apply Hl. }
  unfold provisioned at 1. cbv zeta.
  rewrite (Hall defaults_before_secret);
    [|intros x Hx; apply elem_of_app; by left|done].
  fold env1. unfold env1 at 1 2. rewrite provisioned_secret.
  rewrite truthy_resolve_secret by done. fold env1.
  apply Hall; [intros x Hx; apply elem_of_app; by right|done].
Qed.

(** ** Directories *)

Lemma prefixes_complete q p : q `prefix_of` p → q ∈ prefixes p.
Proof.
  revert q. induction p as [|x p IH]; intros q Hq.
  - apply prefix_nil_inv in Hq as ->. simpl. by left.
  - destruct q as [|y q]; simpl; [by left|]. right.
    apply prefix_cons_inv_1 in Hq as Hxy. apply prefix_cons_inv_2 in Hq.
    subst y. apply list_elem_of_fmap. exists q. split; [done|by apply IH].
Qed.

Lemma creatable_spec p n :
  creatable p n = true → ∀ q, q `prefix_of` p → is_file q n = false.
Proof.
  unfold creatable. rewrite forallb_forall. intros H q Hq.
  apply negb_true_iff, H, list_elem_of_In, prefixes_complete, Hq.
Qed.

Lemma creatable_makedirs p n :
  creatable p n = true → ∃ n', makedirs true p n = inr n'.
Proof. intros H. apply makedirs_succeeds, creatable_spec, H. Qed.

Lemma creatable_after p q n n' :
  makedirs true q n = inr n' → creatable p n = true → creatable p n' = true.
Proof.
  unfold creatable. rewrite !forallb_forall. intros E H r Hr.
  rewrite (makedirs_is_file _ _ _ _ _ E). by apply H.
Qed.

(** ** The claims *)

(** C1 (as the code has it).  After a run that returns, every option of
    the defaulting table resolves to the operator's value when the
    operator had set one, whatever it is, and to the table's default
    otherwise.  The session secret follows its own rule: a value that is
    set and not empty is kept; when the variable is unset or set to the
    empty string, the resolved value is the generated token.  No other
    variable changes. *)
Theorem setup_resolves_options tok w r w' :
  setup_hf_environment tok w = (Val r, w') →
  (∀ k v, (k, v) ∈ defaulting_table →
     environ w' !! k = Some (default v (environ w !! k)))
  ∧ environ w' !! "JWT_SECRET"
      = Some (resolve_secret tok (environ w !! "JWT_SECRET"))
  ∧ (∀ k, k ∉ defaulting_table.*1 → k ≠ "JWT_SECRET" →
       environ w' !! k = environ w !! k).
Proof.
  intros H.
  destruct (setup_returns _ _ _ _ H) as (n1 & n2 & _ & _ & _ & _ & ->).
  cbn [after_setup environ]. split; [|split].
  - intros k v. apply provisioned_default.
  - apply provisioned_secret.
  - intros k. apply provisioned_untouched.
Qed.

Lemma setup_resolves_options_witness :
  let w' := (setup_hf_environment a_token operator_world).2 in
  (∀ k v, (k, v) ∈ defaulting_table →
     environ w' !! k = Some (default v (environ operator_world !! k)))
  ∧ environ w' !! "JWT_SECRET"
      = Some (resolve_secret a_token (environ operator_world !! "JWT_SECRET"))
  ∧ (∀ k, k ∉ defaulting_table.*1 → k ≠ "JWT_SECRET" →
       environ w' !! k = environ operator_world !! k).
Proof.
  apply (setup_resolves_options a_token operator_world
           ("/tmp/openhands", "/tmp/cache")).
  vm_compute. reflexivity.
Defined.

(** C1 as stated fails for the session secret: an operator who has set
    [JWT_SECRET] to the empty string finds it replaced by a generated
    token. *)
Lemma preset_empty_secret_is_replaced :
  environ empty_secret_world !! "JWT_SECRET" = Some ""
  ∧ ∃ r w', setup_hf_environment a_token empty_secret_world = (Val r, w')
            ∧ environ w' !! "JWT_SECRET" = Some a_token
            ∧ a_token ≠ "".
Proof.
  split; [reflexivity|]. eexists _, _. split; [vm_compute; reflexivity|].
  split; [vm_compute; reflexivity|discriminate].
Qed.

(** C2.  A second run after a run that returned (its token, like every
    token of [secrets.token_urlsafe(32)], not empty) returns the same
    value and leaves the world as the first run left it: no environment
    variable changes, no new secret is generated or reported, no
    directory is made. *)
Theorem setup_twice tok1 tok2 w r1 w1 :
  tok1 ≠ "" →
  setup_hf_environment tok1 w = (Val r1, w1) →
  setup_hf_environment tok2 w1 = (Val r1, w1).
Proof.
  intros Htok H.
  pose proof (setup_leaves_dirs _ _ _ _ H) as HD.
  unfold provisioned_dirs in HD. rewrite !Forall_cons in HD.
  destruct HD as (D1 & D2 & D3 & _).
  destruct (setup_returns _ _ _ _ H) as (n1 & n2 & _ & _ & _ & -> & Hw).
  rewrite setup_run.
  rewrite (makedirs_exist_ok _ _ D1), (makedirs_exist_ok _ _ D2),
    (makedirs_exist_ok _ _ D3).
  f_equal. unfold after_setup at 1.
  assert (Henv : environ w1 = provisioned tok1 (environ w)) by by rewrite Hw.
  rewrite Henv, provisioned_fixpoint, provisioned_secret by done.
  rewrite truthy_resolve_secret by done. rewrite (right_id_L [] (++)).
  rewrite <- Henv. by destruct w1.
Qed.

Lemma setup_twice_witness :
  let w1 := (setup_hf_environment a_token empty_secret_world).2 in
  setup_hf_environment another_token w1
  = (Val ("/tmp/openhands", "/tmp/cache"), w1).
Proof.
  apply (setup_twice a_token another_token empty_secret_world).
  - discriminate.
  - vm_compute. reflexivity.
Defined.

(** C9.  Whatever the environment holds, also other paths in
    [FILE_STORE_PATH], [CACHE_DIR] or [WORKSPACE_BASE]: a run that
    returns, returns the pair of constants [("/tmp/openhands",
    "/tmp/cache")] and leaves [/tmp/openhands], [/tmp/cache] and
    [/tmp/workspace] as directories.  These three, with the directories
    on the way to them, are all that the run makes: a path is a directory
    after the run exactly when it was one before or leads to one of the
    three, so no directory is made at a path that the environment
    resolves to; and the run makes and removes no file. *)
Theorem setup_paths_are_constants tok w r w' :
  setup_hf_environment tok w = (Val r, w') →
  r = ("/tmp/openhands", "/tmp/cache")
  ∧ Forall (λ p, is_dir p (fs w') = true) provisioned_dirs
  ∧ (∀ q, is_dir q (fs w') = true
          ↔ is_dir q (fs w) = true
            ∨ ∃ p, p ∈ provisioned_dirs ∧ q `prefix_of` p)
  ∧ (∀ q, is_file q (fs w') = is_file q (fs w)).
Proof.
  intros H.
  pose proof (setup_leaves_dirs _ _ _ _ H) as HD.
  destruct (setup_returns _ _ _ _ H) as (n1 & n2 & E1 & E2 & E3 & -> & _).
  split; [done|]. split; [done|]. split.
  - intros q. split.
    + intros Hq.
      destruct (makedirs_new_dir _ _ _ _ _ E3 Hq) as [Hq2|Hp];
        [|right; exists ["tmp"; "workspace"]; split; [|done];
          unfold provisioned_dirs; rewrite !elem_of_cons; tauto].
      destruct (makedirs_new_dir _ _ _ _ _ E2 Hq2) as [Hq1|Hp];
        [|right; exists ["tmp"; "cache"]; split; [|done];
          unfold provisioned_dirs; rewrite !elem_of_cons; tauto].
      destruct (makedirs_new_dir _ _ _ _ _ E1 Hq1) as [Hq0|Hp];
        [by left|right; exists ["tmp"; "openhands"]; split; [|done];
          unfold provisioned_dirs; rewrite !elem_of_cons; tauto].
    + intros [Hq|(p & Hp & Hq)].
      * eapply makedirs_preserves_dir; [exact E3|].
        eapply makedirs_preserves_dir; [exact E2|].
        by eapply makedirs_preserves_dir.
      * apply (is_dir_prefix p); [done|].
        rewrite Forall_forall in HD. by apply HD.
  - intros q. rewrite (makedirs_is_file _ _ _ _ q E3).
    rewrite (makedirs_is_file _ _ _ _ q E2).
    by rewrite (makedirs_is_file _ _ _ _ q E1).
Qed.

Lemma setup_paths_are_constants_witness :
  environ operator_world !! "FILE_STORE_PATH" = Some "/data/store"
  ∧ (setup_hf_environment a_token operator_world).1
    = Val ("/tmp/openhands", "/tmp/cache")
  ∧ Forall (λ p, is_dir p (fs (setup_hf_environment a_token operator_world).2)
                 = true) provisioned_dirs
  ∧ environ (setup_hf_environment a_token operator_world).2
      !! "FILE_STORE_PATH" = Some "/data/store"
  ∧ is_dir ["data"; "store"]
      (fs (setup_hf_environment a_token operator_world).2) = false.
Proof.
  destruct (setup_paths_are_constants a_token operator_world
              ("/tmp/openhands", "/tmp/cache")
              (setup_hf_environment a_token operator_world).2)
    as (_ & Hdirs & Hexact & _); [vm_compute; reflexivity|].
  split; [reflexivity|]. split; [vm_compute; reflexivity|].
  split; [exact Hdirs|]. split; [vm_compute; reflexivity|].
  apply not_true_is_false. intros Hq. apply Hexact in Hq.
  destruct Hq as [Hq|(p & Hp & Hq)]; [by vm_compute in Hq|].
  unfold provisioned_dirs in Hp. rewrite !elem_of_cons, elem_of_nil in Hp.
  destruct Hp as [->|[->|[->|[]]]];
    by apply prefix_cons_inv_1 in Hq.
Defined.

End AppHfFacts.

(* ===================================================================== *)
(** * The packaging pipeline of [test_hf_deploy.py]                       *)
(* ===================================================================== *)

Module DeployFacts.
Import Py PyFacts Deploy.
#[local] Open Scope list_scope.

(** ** The [try] block of [simulate_workflow] *)

(** One [shutil.copy2] into the scratch directory: the entry is new. *)
Ltac copy2_step :=
  erewrite (copy2_into "test_hf_space" _);
  [|reflexivity|done|by simplify_map_eq].

Ltac finish_run :=
  f_equal; apply world_eq;
  unfold staging_lines, staged;
  cbn [put set_fs add_stdout environ fs stdout walk env_hf app_hf_py
       openhands_tree requirements_txt dockerfile_hf readme_hf_md];
  rewrite ?lookup_insert_eq, <- ?app_assoc; reflexivity.

(** The listing of the scratch directory, the last step that can fail. *)
Ltac at_listing :=
  unfold staged;
  cbn [put set_fs add_stdout fs walk env_hf app_hf_py openhands_tree
       requirements_txt dockerfile_hf readme_hf_md];
  rewrite lookup_insert_eq;
  match goal with
  | |- context [unprintable ?t] => destruct (unprintable t)
  end;
  [eexists|]; finish_run.

Lemma parse_literals :
  parse "./openhands" = ["openhands"] ∧ parse "./app_hf.py" = ["app_hf.py"]
  ∧ parse "./requirements.txt" = ["requirements.txt"]
  ∧ parse "./Dockerfile_HF" = ["Dockerfile_HF"]
  ∧ parse "README_HF.md" = ["README_HF.md"] ∧ parse ".env.hf" = [".env.hf"]
  ∧ parse "openhands" = ["openhands"] ∧ parse "app_hf.py" = ["app_hf.py"]
  ∧ parse "app.py" = ["app.py"]
  ∧ parse "requirements.txt" = ["requirements.txt"]
  ∧ parse "Dockerfile" = ["Dockerfile"] ∧ parse "README.md" = ["README.md"]
  ∧ parse ".env" = [".env"] ∧ parse "./test_hf_space" = ["test_hf_space"]
  ∧ trailing_slash ".env.hf" = false.
Proof. vm_compute. repeat split. Qed.

(** The [try] block on a fresh scratch directory: with all sources in
    place it stages them, and then returns or stops in the listing; with
    a source missing or of the wrong kind it raises. *)
Lemma stage_files_run w d :
  fs w = Dir (<["test_hf_space" := Dir ∅]> d) →
  match find_sources d with
  | Some src =>
      if unprintable (Dir (staged src)) then
        ∃ out,
          stage_files ["test_hf_space"] w =
            (Exc UnicodeEncodeError,
             {| environ := environ w;
                fs := Dir (<["test_hf_space" := Dir (staged src)]> d);
                stdout := out |})
      else
        stage_files ["test_hf_space"] w =
          (Val true,
           {| environ := environ w;
              fs := Dir (<["test_hf_space" := Dir (staged src)]> d);
              stdout := stdout w ++ staging_lines src |})
  | None => ∃ e w', stage_files ["test_hf_space"] w = (Exc e, w')
  end.
Proof.
  intros Hfs. unfold find_sources, stage_files.
  unfold mbind, M_bind, mret, M_ret, print, os_path_exists, print_listing.
  destruct parse_literals as
    (P1 & P2 & P3 & P4 & P5 & P6 & P7 & P8 & P9 & P10 & P11 & P12 & P13
     & _ & T).
  unfold joinpath.
  rewrite P1, P2, P3, P4, P5, P7, P8, P9, P10, P11, P12, P13.
  cbn [app].
  erewrite (copytree_into "test_hf_space" d); [|exact Hfs|done|done].
  destruct (d !! "openhands") as [[?|t]|]; [by eauto| |by eauto].
  copy2_step.
  destruct (d !! "app_hf.py") as [[a|?]|] eqn:Ea; [|by eauto|by eauto].
  copy2_step.
  rewrite Ea.
  copy2_step.
  destruct (d !! "requirements.txt") as [[r|?]|]; [|by eauto|by eauto].
  copy2_step.
  destruct (d !! "Dockerfile_HF") as [[k|?]|]; [|by eauto|by eauto].
  erewrite (read_text_from "test_hf_space" d); [|reflexivity|done].
  destruct (d !! "README_HF.md") as [[m|?]|]; [|by eauto|by eauto].
  destruct (utf8_valid m); [|by eauto].
  erewrite (write_text_into "test_hf_space" d);
    [|reflexivity|by simplify_map_eq].
  rewrite fs_put. unfold exists_at.
  rewrite P6, T. cbn [walk negb]. rewrite lookup_insert_ne by done.
  destruct (d !! ".env.hf") as [[e|?]|] eqn:Ee.
  - copy2_step.
    rewrite Ee. at_listing.
  - copy2_step.
    rewrite Ee. eauto.
  - at_listing.
Qed.

(** ** [simulate_workflow] *)

Lemma simulate_workflow_run w :
  simulate_workflow w =
    match fs w with
    | File _ =>
        (Exc (OSError ENOTDIR ["test_hf_space"]), add_stdout simulating_line w)
    | Dir d =>
      match d !! "test_hf_space" with
      | Some (File _) =>
          (Exc (OSError ENOTDIR ["test_hf_space"]),
           add_stdout simulating_line w)
      | _ =>
        match stage_files ["test_hf_space"] (post_reset w d) with
        | (Val b, w2) => (Val b, w2)
        | (Exc e, w2) => (Val false, add_stdout (failure_report e) w2)
        end
      end
    end.
Proof.
  destruct parse_literals as
    (_ & _ & _ & _ & _ & _ & _ & _ & _ & _ & _ & _ & _ & P & _).
  unfold simulate_workflow, post_reset, simulating_line, failure_report.
  rewrite P.
  unfold mbind, M_bind, mret, M_ret, print, path_exists, shutil_rmtree,
    path_mkdir, fs_op, try_except, print_exn.
  destruct w as [env [c|d] out];
    cbn [add_stdout set_fs fs environ stdout walk update]; [done|].
  destruct (d !! "test_hf_space") as [[c|s]|] eqn:E;
    cbn [add_stdout set_fs fs environ stdout walk update]; rewrite ?E;
    cbn [add_stdout set_fs fs environ stdout walk update].
  - done.
  - rewrite partial_alter_None, lookup_delete_eq, partial_alter_Some,
      insert_delete_eq.
    by destruct (stage_files ["test_hf_space"] _) as [[b|e] w2].
  - rewrite partial_alter_Some.
    by destruct (stage_files ["test_hf_space"] _) as [[b|e] w2].
Qed.

Lemma is_file_scratch d w :
  fs w = Dir d →
  is_file ["test_hf_space"] (fs w) = false →
  match d !! "test_hf_space" with Some (File _) => False | _ => True end.
Proof.
  intros ->. unfold is_file. cbn [walk].
  by destruct (d !! "test_hf_space") as [[c|s]|].
Qed.

Lemma staged_lookup src name :
  staged src !! name =
    if decide (name = ".env") then File <$> env_hf src
    else if decide (name = "README.md") then
      Some (File (front_matter +:+ universal_newlines (readme_hf_md src)))
    else if decide (name = "Dockerfile") then Some (File (dockerfile_hf src))
    else if decide (name = "requirements.txt") then
      Some (File (requirements_txt src))
    else if decide (name = "app.py") then Some (File (app_hf_py src))
    else if decide (name = "app_hf.py") then Some (File (app_hf_py src))
    else if decide (name = "openhands") then Some (Dir (openhands_tree src))
    else None.
Proof.
  unfold staged.
  destruct (env_hf src) as [e|]; cbn [fmap option_fmap option_map];
    repeat (case_decide; [subst; by simplify_map_eq|]);
    by simplify_map_eq.
Qed.

(** The names that staging gives are printable: whether the scratch
    directory can be listed is decided by the names below the copy of the
    application-code directory. *)
Lemma unprintable_staged src :
  unprintable (Dir (staged src)) = unprintable (Dir (openhands_tree src)).
Proof.
  apply Bool.eq_iff_eq_true. rewrite (unprintable_dir (staged src)). split.
  - intros (name & c & Hl & H). rewrite staged_lookup in Hl.
    repeat (match type of Hl with
            | context [decide (name = ?y)] =>
                destruct (decide (name = y)) as [->|?]
            end);
      try (destruct (env_hf src); cbn in Hl); try discriminate;
      injection Hl as <-; destruct H as [H|[_ H]];
      first [exact H | by vm_compute in H | done].
  - intros H. exists "openhands", (Dir (openhands_tree src)).
    rewrite staged_lookup. split; [done|]. by left.
Qed.

(** [simulate_workflow] on sources that are all there: it stages them,
    and returns [True] unless the listing of the scratch directory
    fails. *)
Lemma simulate_workflow_sources w d src :
  fs w = Dir d →
  is_file ["test_hf_space"] (fs w) = false →
  find_sources d = Some src →
  if unprintable (Dir (openhands_tree src)) then
    ∃ out,
      simulate_workflow w =
        (Val false,
         {| environ := environ w;
            fs := Dir (<["test_hf_space" := Dir (staged src)]> d);
            stdout := out ++ [failure_report UnicodeEncodeError] |})
  else simulate_workflow w = (Val true, staged_world w d src).
Proof.
  intros Hfs Hscratch Hsrc.
  pose proof (is_file_scratch _ _ Hfs Hscratch) as Hs.
  rewrite simulate_workflow_run, Hfs.
  pose proof (stage_files_run (post_reset w d) d eq_refl) as Hrun.
  rewrite Hsrc, unprintable_staged in Hrun.
  destruct (unprintable (Dir (openhands_tree src))).
  - destruct Hrun as [out ->].
    destruct (d !! "test_hf_space") as [[c|s]|]; [done| |];
      (eexists; f_equal; apply world_eq;
       cbn [add_stdout post_reset environ fs stdout]; reflexivity).
  - rewrite Hrun.
    destruct (d !! "test_hf_space") as [[c|s]|]; [done| |];
      (f_equal; apply world_eq;
       cbn [staged_world post_reset environ fs stdout];
       [done|done|by rewrite <- (assoc_L (++))]).
Qed.

(** Staging succeeds on sources that are all there and can be listed. *)
Lemma simulate_workflow_succeeds w d src :
  fs w = Dir d →
  is_file ["test_hf_space"] (fs w) = false →
  find_sources d = Some src →
  unprintable (Dir (openhands_tree src)) = false →
  simulate_workflow w = (Val true, staged_world w d src).
Proof.
  intros Hfs Hscratch Hsrc Hlist.
  pose proof (simulate_workflow_sources w d src Hfs Hscratch Hsrc) as H.
  by rewrite Hlist in H.
Qed.

(** A staging run that returns [True] had all its sources. *)
Lemma simulate_workflow_succeeded w w' :
  simulate_workflow w = (Val true, w') →
  ∃ d src,
    fs w = Dir d ∧ is_file ["test_hf_space"] (fs w) = false ∧
    find_sources d = Some src ∧ w' = staged_world w d src.
Proof.
  intros H.
  destruct (fs w) as [c|d] eqn:Hfs;
    [by rewrite simulate_workflow_run, Hfs in H|].
  assert (Hscratch : is_file ["test_hf_space"] (fs w) = false).
  { rewrite simulate_workflow_run, Hfs in H. rewrite Hfs. unfold is_file.
    cbn [walk]. by destruct (d !! "test_hf_space") as [[c|s]|]. }
  destruct (find_sources d) as [src|] eqn:Hsrc.
  - pose proof (simulate_workflow_sources w d src Hfs Hscratch Hsrc) as Hrun.
    destruct (unprintable (Dir (openhands_tree src))).
    + destruct Hrun as [out Hrun]. by rewrite Hrun in H.
    + rewrite Hrun in H. injection H as <-. exists d, src. by rewrite <- Hfs.
  - pose proof (is_file_scratch _ _ Hfs Hscratch) as Hs.
    rewrite simulate_workflow_run, Hfs in H.
    pose proof (stage_files_run (post_reset w d) d eq_refl) as Hrun.
    rewrite Hsrc in Hrun. destruct Hrun as (e & w2 & Hrun).
    rewrite Hrun in H. by destruct (d !! "test_hf_space") as [[c|s]|].
Qed.

(** ... and every file that it staged could be listed. *)
Lemma simulate_workflow_listed w w' d src :
  simulate_workflow w = (Val true, w') →
  fs w = Dir d →
  find_sources d = Some src →
  unprintable (Dir (openhands_tree src)) = false.
Proof.
  intros H Hfs Hsrc.
  destruct (simulate_workflow_succeeded _ _ H) as (d' & src' & Hfs' & Hs & _).
  pose proof (simulate_workflow_sources w d src Hfs Hs Hsrc) as Hrun.
  destruct (unprintable (Dir (openhands_tree src))); [|done].
  destruct Hrun as [out Hrun]. by rewrite Hrun in H.
Qed.

Lemma walk_staged w d src name :
  walk ["test_hf_space"; name] (fs (staged_world w d src)) =
    match staged src !! name with
    | Some n => inr n
    | None => inl ENOENT
    end.
Proof. cbn [staged_world fs walk]. by rewrite lookup_insert_eq. Qed.

Lemma universal_newlines_id s : has_cr s = false → universal_newlines s = s.
Proof.
  induction s as [|c s IH]; simpl; [done|].
  destruct (Ascii.eqb c CR); simpl; [done|]. intros H. by rewrite IH.
Qed.

Lemma find_sources_inv d src :
  find_sources d = Some src →
  d !! "openhands" = Some (Dir (openhands_tree src))
  ∧ d !! "app_hf.py" = Some (File (app_hf_py src))
  ∧ d !! "requirements.txt" = Some (File (requirements_txt src))
  ∧ d !! "Dockerfile_HF" = Some (File (dockerfile_hf src))
  ∧ d !! "README_HF.md" = Some (File (readme_hf_md src))
  ∧ utf8_valid (readme_hf_md src) = true
  ∧ d !! ".env.hf" = File <$> env_hf src.
Proof.
  unfold find_sources.
  destruct (d !! "openhands") as [[?|t]|]; try done.
  destruct (d !! "app_hf.py") as [[a|?]|]; try done.
  destruct (d !! "requirements.txt") as [[r|?]|]; try done.
  destruct (d !! "Dockerfile_HF") as [[k|?]|]; try done.
  destruct (d !! "README_HF.md") as [[m|?]|]; try done.
  destruct (utf8_valid m) eqn:U; try done.
  destruct (d !! ".env.hf") as [[e|?]|]; try done; by intros [= <-].
Qed.

Lemma find_sources_intro d t a r k m :
  d !! "openhands" = Some (Dir t) →
  d !! "app_hf.py" = Some (File a) →
  d !! "requirements.txt" = Some (File r) →
  d !! "Dockerfile_HF" = Some (File k) →
  d !! "README_HF.md" = Some (File m) →
  utf8_valid m = true →
  find_sources d =
    match d !! ".env.hf" with
    | Some (Dir _) => None
    | Some (File e) => Some (mkSources t a r k m (Some e))
    | None => Some (mkSources t a r k m None)
    end.
Proof.
  intros H1 H2 H3 H4 H5 H6. unfold find_sources.
  by rewrite H1, H2, H3, H4, H5, H6.
Qed.

Lemma staged_is_file w d src name :
  is_file ["test_hf_space"; name] (fs (staged_world w d src)) = true
  ↔ name ∈ staged_files src.
Proof.
  unfold is_file. rewrite walk_staged, staged_lookup. unfold staged_files.
  destruct (env_hf src) as [e|]; cbn [fmap option_fmap option_map app];
    rewrite ?elem_of_cons, elem_of_nil;
    repeat (match goal with
            | |- context [decide (name = ?y)] =>
                destruct (decide (name = y)) as [->|?];
                [split; intros ?;
                 first [done | by repeat (first [left; reflexivity | right])
                       | exfalso; intuition discriminate]|]
            end);
    (split; [done|intuition congruence]).
Qed.

Lemma staged_is_dir w d src name :
  is_dir ["test_hf_space"; name] (fs (staged_world w d src)) = true
  ↔ name = "openhands".
Proof.
  unfold is_dir. rewrite walk_staged, staged_lookup.
  destruct (env_hf src) as [e|]; cbn [fmap option_fmap option_map];
    repeat (match goal with
            | |- context [decide (name = ?y)] =>
                destruct (decide (name = y)) as [->|?]; [done|]
            end);
    done.
Qed.

(** C4 (as the code has it).  After every successful run of the staging
    stage the scratch directory holds exactly these entries: the copy of
    the application-code directory, [openhands], with the tree of the
    source below it, and the regular files [app_hf.py], [app.py],
    [requirements.txt], [Dockerfile] and [README.md], five of them, plus
    [.env], the sixth, exactly when the environment template is there.
    Nothing else is a file or a directory at the top of the scratch
    directory. *)
Theorem staged_entries w w' :
  simulate_workflow w = (Val true, w') →
  ∃ src,
    walk ["test_hf_space"] (fs w') = inr (Dir (staged src))
    ∧ walk ["openhands"] (fs w) = inr (Dir (openhands_tree src))
    ∧ (env_hf src = None ↔ exists_at ".env.hf" (fs w) = false)
    ∧ (∀ name, is_file ["test_hf_space"; name] (fs w') = true
               ↔ name ∈ staged_files src)
    ∧ (∀ name, is_dir ["test_hf_space"; name] (fs w') = true
               ↔ name = "openhands")
    ∧ NoDup (staged_files src)
    ∧ length (staged_files src)
        = (if exists_at ".env.hf" (fs w) then 6 else 5).
Proof.
  intros H.
  destruct (simulate_workflow_succeeded _ _ H)
    as (d & src & Hfs & _ & Hsrc & ->).
  destruct (find_sources_inv _ _ Hsrc) as (Ho & _ & _ & _ & _ & _ & He).
  assert (Hex : exists_at ".env.hf" (fs w) = bool_decide (env_hf src ≠ None)).
  { rewrite Hfs. unfold exists_at.
    destruct parse_literals
      as (_ & _ & _ & _ & _ & -> & _ & _ & _ & _ & _ & _ & _ & _ & ->).
    cbn [walk]. rewrite He. by destruct (env_hf src). }
  exists src. split; [|split; [|split; [|split; [|split; [|split]]]]].
  - cbn [staged_world fs walk]. by rewrite lookup_insert_eq.
  - rewrite Hfs. cbn [walk]. by rewrite Ho.
  - rewrite Hex. by destruct (env_hf src).
  - apply staged_is_file.
  - apply staged_is_dir.
  - unfold staged_files. destruct (env_hf src); cbn [app];
      repeat (apply NoDup_cons; split;
              [rewrite ?elem_of_cons, elem_of_nil; intuition discriminate|]);
      apply NoDup_nil_2.
  - rewrite Hex. unfold staged_files. by destruct (env_hf src).
Qed.

Lemma staged_entries_witness :
  ∃ src,
    walk ["test_hf_space"] (fs (simulate_workflow env_world).2)
      = inr (Dir (staged src))
    ∧ walk ["openhands"] (fs env_world) = inr (Dir (openhands_tree src))
    ∧ (env_hf src = None ↔ exists_at ".env.hf" (fs env_world) = false)
    ∧ (∀ name, is_file ["test_hf_space"; name]
                 (fs (simulate_workflow env_world).2) = true
               ↔ name ∈ staged_files src)
    ∧ (∀ name, is_dir ["test_hf_space"; name]
                 (fs (simulate_workflow env_world).2) = true
               ↔ name = "openhands")
    ∧ NoDup (staged_files src)
    ∧ length (staged_files src)
        = (if exists_at ".env.hf" (fs env_world) then 6 else 5).
Proof.
  apply (staged_entries env_world). vm_compute. reflexivity.
Defined.

(** C4 as stated fails: in the scenario of the specification (all
    required entries there, one file in the application-code directory,
    no environment template) staging succeeds and the scratch directory
    holds, besides the four files that the claim names, the bootstrap
    script under its own name and the file of the copied tree. *)
Lemma scratch_holds_more_than_four_files :
  (simulate_workflow sample_world).1 = Val true
  ∧ exists_at ".env.hf" (fs sample_world) = false
  ∧ ("app_hf.py" ∉ ["app.py"; "requirements.txt"; "Dockerfile"; "README.md"])
  ∧ is_file ["test_hf_space"; "app_hf.py"]
      (fs (simulate_workflow sample_world).2) = true
  ∧ is_file ["test_hf_space"; "openhands"; "server.py"]
      (fs (simulate_workflow sample_world).2) = true.
Proof.
  split; [vm_compute; reflexivity|]. split; [vm_compute; reflexivity|].
  split; [rewrite !elem_of_cons, elem_of_nil; intuition discriminate|].
  split; vm_compute; reflexivity.
Qed.

(** C5.  After every successful staging run the bootstrap script is in
    the scratch directory under both names, [app_hf.py] and [app.py],
    and both hold the bytes of the script in the invocation
    directory. *)
Theorem entry_point_staged_twice w w' :
  simulate_workflow w = (Val true, w') →
  ∃ content,
    walk ["app_hf.py"] (fs w) = inr (File content)
    ∧ walk ["test_hf_space"; "app_hf.py"] (fs w') = inr (File content)
    ∧ walk ["test_hf_space"; "app.py"] (fs w') = inr (File content).
Proof.
  intros H.
  destruct (simulate_workflow_succeeded _ _ H)
    as (d & src & Hfs & _ & Hsrc & ->).
  destruct (find_sources_inv _ _ Hsrc) as (_ & Ha & _).
  exists (app_hf_py src). rewrite Hfs, !walk_staged, !staged_lookup.
  cbn [walk]. by rewrite Ha.
Qed.

Lemma entry_point_staged_twice_witness :
  ∃ content,
    walk ["app_hf.py"] (fs sample_world) = inr (File content)
    ∧ walk ["test_hf_space"; "app_hf.py"]
        (fs (simulate_workflow sample_world).2) = inr (File content)
    ∧ walk ["test_hf_space"; "app.py"]
        (fs (simulate_workflow sample_world).2) = inr (File content).
Proof.
  apply (entry_point_staged_twice sample_world). vm_compute. reflexivity.
Defined.

(** C6 (as the code has it).  After every successful staging run the
    staged [README.md] is the front-matter block followed at once by the
    template as text mode reads it: every ["\r\n"] and every lone
    ["\r"] of the template has become ["\n"].  For a template without
    carriage return that is the template unmodified. *)
Theorem readme_is_front_matter_then_template w w' :
  simulate_workflow w = (Val true, w') →
  ∃ template,
    walk ["README_HF.md"] (fs w) = inr (File template)
    ∧ walk ["test_hf_space"; "README.md"] (fs w')
        = inr (File (front_matter +:+ universal_newlines template))
    ∧ (has_cr template = false →
       walk ["test_hf_space"; "README.md"] (fs w')
         = inr (File (front_matter +:+ template))).
Proof.
  intros H.
  destruct (simulate_workflow_succeeded _ _ H)
    as (d & src & Hfs & _ & Hsrc & ->).
  destruct (find_sources_inv _ _ Hsrc) as (_ & _ & _ & _ & Hm & _).
  exists (readme_hf_md src). rewrite Hfs, !walk_staged, !staged_lookup.
  cbn [walk]. rewrite Hm. split; [done|]. split; [done|].
  intros Hcr. by rewrite universal_newlines_id.
Qed.

Lemma readme_is_front_matter_then_template_witness :
  ∃ template,
    walk ["README_HF.md"] (fs sample_world) = inr (File template)
    ∧ walk ["test_hf_space"; "README.md"]
        (fs (simulate_workflow sample_world).2)
        = inr (File (front_matter +:+ universal_newlines template))
    ∧ (has_cr template = false →
       walk ["test_hf_space"; "README.md"]
         (fs (simulate_workflow sample_world).2)
         = inr (File (front_matter +:+ template))).
Proof.
  apply (readme_is_front_matter_then_template sample_world).
  vm_compute. reflexivity.
Defined.

(** C6 as stated fails on a template with a carriage return: the staged
    file is not the front matter followed by the template's bytes. *)
Lemma crlf_template_is_not_kept :
  (simulate_workflow crlf_world).1 = Val true
  ∧ walk ["README_HF.md"] (fs crlf_world) = inr (File crlf_template)
  ∧ (walk ["test_hf_space"; "README.md"]
        (fs (simulate_workflow crlf_world).2))
      ≠ (inr (File (front_matter +:+ crlf_template))).
Proof.
  split; [vm_compute; reflexivity|]. split; [vm_compute; reflexivity|].
  vm_compute. discriminate.
Qed.

(** C7.  The environment template [.env.hf] is optional.  On an
    invocation directory without it, its absence is never what makes
    staging fail: staging returns [True] there exactly when it returns
    [True] on the same directory with a template added, whatever the
    content of the template.  A run without the template that returns
    [True] leaves no [.env] in the scratch directory; a run with the
    template that returns [True] leaves [.env] with the bytes of the
    template. *)
Theorem env_template_is_optional w d e :
  fs w = Dir d →
  d !! ".env.hf" = None →
  ((∃ w', simulate_workflow w = (Val true, w'))
   ↔ (∃ w', simulate_workflow (set_fs (Dir (<[".env.hf" := File e]> d)) w)
            = (Val true, w')))
  ∧ (∀ w', simulate_workflow w = (Val true, w') →
       walk ["test_hf_space"; ".env"] (fs w') = inl ENOENT)
  ∧ (∀ w', simulate_workflow (set_fs (Dir (<[".env.hf" := File e]> d)) w)
           = (Val true, w') →
       walk ["test_hf_space"; ".env"] (fs w') = inr (File e)).
Proof.
  intros Hfs He.
  assert (Hscratch : ∀ n,
    is_file ["test_hf_space"] (Dir (<[".env.hf" := n]> d))
    = is_file ["test_hf_space"] (Dir d)).
  { intros n. unfold is_file. cbn [walk]. by rewrite lookup_insert_ne. }
  assert (Hwith : ∀ src, find_sources d = Some src →
    find_sources (<[".env.hf" := File e]> d)
    = Some (mkSources (openhands_tree src) (app_hf_py src)
              (requirements_txt src) (dockerfile_hf src) (readme_hf_md src)
              (Some e))).
  { intros src Hsrc.
    destruct (find_sources_inv _ _ Hsrc) as (H1 & H2 & H3 & H4 & H5 & H6 & _).
    rewrite (find_sources_intro _ (openhands_tree src) (app_hf_py src)
               (requirements_txt src) (dockerfile_hf src) (readme_hf_md src));
      rewrite ?lookup_insert_ne by done; try done.
    by rewrite lookup_insert_eq. }
  assert (Hwithout : ∀ src,
    find_sources (<[".env.hf" := File e]> d) = Some src →
    find_sources d
    = Some (mkSources (openhands_tree src) (app_hf_py src)
              (requirements_txt src) (dockerfile_hf src) (readme_hf_md src)
              None)).
  { intros src Hsrc.
    destruct (find_sources_inv _ _ Hsrc) as (H1 & H2 & H3 & H4 & H5 & H6 & _).
    rewrite lookup_insert_ne in H1, H2, H3, H4, H5 by done.
    rewrite (find_sources_intro _ (openhands_tree src) (app_hf_py src)
               (requirements_txt src) (dockerfile_hf src) (readme_hf_md src));
      try done.
    by rewrite He. }
  split; [split|split].
  - intros [w' H].
    destruct (simulate_workflow_succeeded _ _ H)
      as (d' & src & Hfs' & Hs & Hsrc & _).
    rewrite Hfs in Hfs'. injection Hfs' as <-.
    pose proof (simulate_workflow_listed _ _ _ _ H Hfs Hsrc) as Hlist.
    eexists. eapply simulate_workflow_succeeds.
    + reflexivity.
    + cbn [set_fs fs]. rewrite Hscratch. by rewrite Hfs in Hs.
    + by apply Hwith.
    + exact Hlist.
  - intros [w' H].
    destruct (simulate_workflow_succeeded _ _ H)
      as (d' & src & Hfs' & Hs & Hsrc & _).
    cbn [set_fs fs] in Hfs', Hs. injection Hfs' as <-.
    pose proof (simulate_workflow_listed _ _ _ _ H eq_refl Hsrc) as Hlist.
    eexists. eapply simulate_workflow_succeeds.
    + exact Hfs.
    + rewrite Hfs. by rewrite Hscratch in Hs.
    + by apply Hwithout.
    + exact Hlist.
  - intros w' H.
    destruct (simulate_workflow_succeeded _ _ H)
      as (d' & src & Hfs' & _ & Hsrc & ->).
    rewrite Hfs in Hfs'. injection Hfs' as <-.
    destruct (find_sources_inv _ _ Hsrc) as (_ & _ & _ & _ & _ & _ & He').
    rewrite He in He'. rewrite walk_staged, staged_lookup.
    by destruct (env_hf src).
  - intros w' H.
    destruct (simulate_workflow_succeeded _ _ H)
      as (d' & src & Hfs' & _ & Hsrc & ->).
    cbn [set_fs fs] in Hfs'. injection Hfs' as <-.
    destruct (find_sources_inv _ _ Hsrc) as (_ & _ & _ & _ & _ & _ & He').
    rewrite lookup_insert_eq in He'. rewrite walk_staged, staged_lookup.
    destruct (env_hf src); [|done]. by injection He' as ->.
Qed.

Lemma env_template_is_optional_witness :
  (simulate_workflow sample_world).1 = Val true
  ∧ walk ["test_hf_space"; ".env"] (fs (simulate_workflow sample_world).2)
    = inl ENOENT
  ∧ (∃ w', simulate_workflow
             (set_fs (Dir (<[".env.hf" := File "LLM_MODEL=x"]> sample_dir))
                sample_world) = (Val true, w')
           ∧ walk ["test_hf_space"; ".env"] (fs w')
             = inr (File "LLM_MODEL=x")).
Proof.
  assert (Hnone : sample_dir !! ".env.hf" = None) by (vm_compute; reflexivity).
  destruct (env_template_is_optional sample_world sample_dir "LLM_MODEL=x"
              eq_refl Hnone) as (Hiff & Habsent & Hthere).
  split; [vm_compute; reflexivity|].
  split; [apply Habsent; vm_compute; reflexivity|].
  destruct Hiff as [Hadd _].
  destruct Hadd as [w' Hw'];
    [eexists; vm_compute; reflexivity|].
  exists w'. split; [exact Hw'|]. by apply Hthere.
Defined.

(** C10.  The reset of the scratch directory runs before the [try]
    block: when it fails (a regular file has the name of the scratch
    directory, so [shutil.rmtree] raises, or the tree has no directory
    to make it in), [simulate_workflow] raises that exception, prints
    no failure report and returns nothing.  Once
    the scratch directory is made, an exception of the [try] block is
    caught, reported with the exception and turned into the result
    [False], and a result of the block is the result of the function;
    a missing application-code directory is such a caught failure. *)
Theorem reset_runs_outside_the_handler w :
  (is_file ["test_hf_space"] (fs w) = true ∨ is_file [] (fs w) = true →
   simulate_workflow w
   = (Exc (OSError ENOTDIR ["test_hf_space"]), add_stdout simulating_line w))
  ∧ (∀ d, fs w = Dir d → is_file ["test_hf_space"] (fs w) = false →
     (∀ e w2, stage_files ["test_hf_space"] (post_reset w d) = (Exc e, w2) →
        simulate_workflow w = (Val false, add_stdout (failure_report e) w2))
     ∧ (∀ b w2, stage_files ["test_hf_space"] (post_reset w d) = (Val b, w2) →
        simulate_workflow w = (Val b, w2))
     ∧ (d !! "openhands" = None →
        simulate_workflow w
        = (Val false,
           {| environ := environ w;
              fs := Dir (<["test_hf_space" := Dir ∅]> d);
              stdout := stdout w ++
                [ simulating_line;
                  Print "📁 Copying openhands folder...";
                  failure_report (OSError ENOENT ["openhands"]) ] |}))).
Proof.
  split.
  - rewrite simulate_workflow_run. unfold is_file.
    destruct (fs w) as [c|d]; [done|]. cbn [walk].
    destruct (d !! "test_hf_space") as [[c|s]|]; [done| |];
      by intros [?|?].
  - intros d Hfs Hscratch.
    pose proof (is_file_scratch _ _ Hfs Hscratch) as Hs.
    rewrite simulate_workflow_run, Hfs. split; [|split].
    + intros e w2 ->. by destruct (d !! "test_hf_space") as [[c|s]|].
    + intros b w2 ->. by destruct (d !! "test_hf_space") as [[c|s]|].
    + intros Ho.
      assert (Hrun : stage_files ["test_hf_space"] (post_reset w d)
                = (Exc (OSError ENOENT ["openhands"]),
                   add_stdout (Print "📁 Copying openhands folder...")
                     (post_reset w d))).
      { unfold stage_files, mbind, M_bind, print.
        destruct parse_literals as (-> & _). unfold joinpath.
        destruct parse_literals as (_ & _ & _ & _ & _ & _ & -> & _).
        cbn [app].
        erewrite (copytree_into "test_hf_space" d ∅); [|reflexivity|done|done].
        by rewrite Ho. }
      rewrite Hrun.
      destruct (d !! "test_hf_space") as [[c|s]|]; [done| |];
        (f_equal; apply world_eq;
         cbn [add_stdout post_reset environ fs stdout];
         [done|done|by rewrite <- !(assoc_L (++))]).
Qed.

Lemma reset_runs_outside_the_handler_witness :
  simulate_workflow blocked_world
  = (Exc (OSError ENOTDIR ["test_hf_space"]),
     add_stdout simulating_line blocked_world)
  ∧ simulate_workflow incomplete_world
    = (Val false,
       add_stdout (failure_report (OSError ENOTDIR ["openhands"]))
         (stage_files ["test_hf_space"]
            (post_reset incomplete_world
               (<["openhands" := File "not a directory"]>
                  (delete "README_HF.md" sample_dir)))).2)
  ∧ simulate_workflow no_code_world
    = (Val false,
       {| environ := ∅;
          fs := Dir (<["test_hf_space" := Dir ∅]>
                       (delete "openhands" sample_dir));
          stdout :=
            [ simulating_line;
              Print "📁 Copying openhands folder...";
              failure_report (OSError ENOENT ["openhands"]) ] |}).
Proof.
  split; [|split].
  - apply (reset_runs_outside_the_handler blocked_world).
    left. vm_compute. reflexivity.
  - destruct (reset_runs_outside_the_handler incomplete_world) as [_ H].
    destruct (H (<["openhands" := File "not a directory"]>
                   (delete "README_HF.md" sample_dir)))
      as (Hcaught & _ & _); [reflexivity|vm_compute; reflexivity|].
    apply Hcaught. vm_compute. reflexivity.
  - destruct (reset_runs_outside_the_handler no_code_world) as [_ H].
    destruct (H (delete "openhands" sample_dir))
      as (_ & _ & Hmissing); [reflexivity|vm_compute; reflexivity|].
    apply Hmissing. vm_compute. reflexivity.
Defined.

(** ** [test_file_preparation] *)

Lemma check_files_run files missing w :
  check_files files missing w =
    (Val (missing ++ filter (λ p, exists_at p (fs w) = false) files),
     {| environ := environ w;
        fs := fs w;
        stdout := stdout w ++
          map found_line (filter (λ p, exists_at p (fs w) = true) files) |}).
Proof.
  revert missing w. induction files as [|p files IH]; intros missing w.
  - cbn [check_files filter list_filter map]. unfold mret, M_ret.
    rewrite !(right_id_L [] (++)). by destruct w.
  - cbn [check_files]. unfold mbind, M_bind, os_path_exists, print.
    rewrite !filter_cons. destruct (exists_at p (fs w)) eqn:E; cbn [negb].
    + rewrite IH. cbn [add_stdout environ fs stdout].
      rewrite decide_False by done. rewrite decide_True by done.
      cbn [map]. by rewrite <- (assoc_L (++)).
    + rewrite IH. rewrite decide_True by done. rewrite decide_False by done.
      by rewrite <- (assoc_L (++)).
Qed.

Lemma test_file_preparation_run w :
  let missing := filter (λ p, exists_at p (fs w) = false) required_files in
  test_file_preparation w =
    (Val (bool_decide (missing = [])),
     {| environ := environ w;
        fs := fs w;
        stdout := stdout w
          ++ Print "🔍 Checking required files..."
          :: map found_line
               (filter (λ p, exists_at p (fs w) = true) required_files)
          ++ [verdict_line missing] |}).
Proof.
  intros missing. unfold test_file_preparation, mbind, M_bind, print.
  rewrite check_files_run. cbn [add_stdout environ fs stdout app].
  fold missing. destruct missing as [|p l]; unfold mret, M_ret, add_stdout;
    cbn [environ fs stdout verdict_line];
    (f_equal; f_equal; rewrite <- !(assoc_L (++)); reflexivity).
Qed.

Lemma filter_agree {A} (P Q : A → Prop) `{∀ x, Decision (P x)}
    `{∀ x, Decision (Q x)} (l : list A) :
  (∀ x, x ∈ l → (P x ↔ Q x)) → filter P l = filter Q l.
Proof.
  induction l as [|x l IH]; intros HPQ; [done|].
  rewrite !filter_cons, IH by (intros y Hy; apply HPQ; by right).
  assert (P x ↔ Q x) by (apply HPQ; by left).
  destruct (decide (P x)), (decide (Q x)); try done; exfalso; tauto.
Qed.

Lemma required_files_NoDup : NoDup required_files.
Proof.
  unfold required_files.
  repeat (apply NoDup_cons; split;
          [rewrite ?elem_of_cons, elem_of_nil; intuition discriminate|]).
  apply NoDup_nil_2.
Qed.

(** C3.  Let [S] be a set of required paths, and let exactly the paths
    of [S] be missing from the invocation directory.  Then the
    precondition check changes nothing but the output, returns success
    exactly when [S] is empty, prints a [✅] line for every required
    path outside [S], and ends with the verdict: the line that all files
    were found when [S] is empty, and otherwise the list of the missing
    files, which holds every path of [S], once, and nothing else. *)
Theorem every_missing_file_is_reported (S : list string) w :
  S ⊆ required_files →
  (∀ p, p ∈ required_files → (exists_at p (fs w) = false ↔ p ∈ S)) →
  let reported := filter (λ p, p ∈ S) required_files in
  test_file_preparation w =
    (Val (bool_decide (S = [])),
     {| environ := environ w;
        fs := fs w;
        stdout := stdout w
          ++ Print "🔍 Checking required files..."
          :: map found_line (filter (λ p, p ∉ S) required_files)
          ++ [verdict_line reported] |})
  ∧ (∀ p, p ∈ reported ↔ p ∈ S)
  ∧ NoDup reported.
Proof.
  intros Hsub HS reported.
  assert (Hrep : ∀ p, p ∈ reported ↔ p ∈ S).
  { intros p. unfold reported. rewrite list_elem_of_filter.
    split; [tauto|]. intros Hp. split; [done|by apply Hsub]. }
  assert (Hnil : bool_decide (reported = []) = bool_decide (S = [])).
  { apply bool_decide_ext. split.
    - intros Hr. destruct S as [|p S']; [done|].
      assert (p ∈ reported) as Hp by (apply Hrep; by left).
      rewrite Hr in Hp. by apply elem_of_nil in Hp.
    - intros ->. reflexivity. }
  split; [|split; [done|apply NoDup_filter, required_files_NoDup]].
  rewrite test_file_preparation_run. cbv zeta.
  rewrite (filter_agree (λ p, exists_at p (fs w) = false) (λ p, p ∈ S))
    by exact HS.
  rewrite (filter_agree (λ p, exists_at p (fs w) = true) (λ p, p ∉ S)).
  - fold reported. by rewrite Hnil.
  - intros p Hp. rewrite <- (HS p Hp). by destruct (exists_at p (fs w)).
Qed.

Lemma every_missing_file_is_reported_witness :
  test_file_preparation incomplete_world =
    (Val false,
     {| environ := ∅;
        fs := fs incomplete_world;
        stdout :=
          [ Print "🔍 Checking required files...";
            Print "✅ app_hf.py";
            Print "✅ requirements.txt";
            Print "✅ Dockerfile_HF";
            Print "❌ Missing files: ['openhands/', 'README_HF.md']" ] |}).
Proof.
  destruct (every_missing_file_is_reported
              ["openhands/"; "README_HF.md"] incomplete_world) as (H & _).
  - intros x Hx. unfold required_files.
    rewrite !elem_of_cons, elem_of_nil in *. tauto.
  - intros p Hp. unfold required_files in Hp.
    rewrite !elem_of_cons, elem_of_nil in Hp.
    destruct Hp as [->|[->|[->|[->|[->|[]]]]]];
      match goal with
      | |- ?b = false ↔ _ =>
          let v := eval vm_compute in b in
          replace b with v by (vm_compute; reflexivity)
      end;
      rewrite !elem_of_cons, elem_of_nil; intuition discriminate.
  - rewrite H. vm_compute. reflexivity.
Defined.

(** Both directions of the precondition check on a complete directory. *)
Lemma find_sources_required d src p :
  find_sources d = Some src → p ∈ required_files →
  exists_at p (Dir d) = true.
Proof.
  intros Hsrc Hp.
  destruct (find_sources_inv _ _ Hsrc) as (H1 & H2 & H3 & H4 & H5 & _).
  unfold required_files in Hp. rewrite !elem_of_cons, elem_of_nil in Hp.
  unfold exists_at.
  destruct Hp as [->|[->|[->|[->|[->|[]]]]]].
  - change (parse "openhands/") with ["openhands"]. cbn [walk]. by rewrite H1.
  - change (parse "app_hf.py") with ["app_hf.py"]. cbn [walk]. by rewrite H2.
  - change (parse "requirements.txt") with ["requirements.txt"].
    cbn [walk]. by rewrite H3.
  - change (parse "Dockerfile_HF") with ["Dockerfile_HF"].
    cbn [walk]. by rewrite H4.
  - change (parse "README_HF.md") with ["README_HF.md"].
    cbn [walk]. by rewrite H5.
Qed.

(** ** [check_hf_token] and [main] *)

Lemma check_hf_token_run w :
  check_hf_token w =
    (Val (truthy (environ w !! "HF_TOKEN")),
     {| environ := environ w;
        fs := fs w;
        stdout := stdout w ++ credential_lines (environ w !! "HF_TOKEN") |}).
Proof.
  unfold check_hf_token, credential_lines, mbind, M_bind, mret, M_ret,
    print, os_getenv.
  cbn [add_stdout environ fs stdout].
  destruct (truthy (environ w !! "HF_TOKEN")); cbn [negb];
    unfold add_stdout; cbn [environ fs stdout];
    (f_equal; f_equal; rewrite <- !(assoc_L (++)); reflexivity).
Qed.

Lemma main_run w :
  main w =
    match test_file_preparation (add_stdout banner_line w) with
    | (Val true, w1) =>
        match simulate_workflow w1 with
        | (Val true, w2) =>
            (Val (),
             {| environ := environ w2;
                fs := fs w2;
                stdout := stdout w2
                  ++ credential_lines (environ w2 !! "HF_TOKEN")
                  ++ success_lines |})
        | (Val false, w2) => (Val (), add_stdout stage2_failed_line w2)
        | (Exc e, w2) => (Exc e, w2)
        end
    | (Val false, w1) => (Val (), add_stdout stage1_failed_line w1)
    | (Exc e, w1) => (Exc e, w1)
    end.
Proof.
  unfold main, mbind, M_bind, mret, M_ret, print, banner_line.
  destruct (test_file_preparation _) as [[[|]|e] w1]; cbn [negb]; [|done|done].
  destruct (simulate_workflow w1) as [[[|]|e] w2]; cbn [negb]; [|done|done].
  rewrite check_hf_token_run. unfold add_stdout, success_lines.
  cbn [environ fs stdout]. f_equal. f_equal.
  rewrite <- !(assoc_L (++)). reflexivity.
Qed.

(** C8 (as the code has it).  [main] stops after a failed Stage 1 and
    after a failed Stage 2 with the line of that stage, and runs nothing
    further, the credential check neither.  In every execution in which
    both stages succeed, the credential check runs: its lines are
    printed, the warning when [HF_TOKEN] is unset or empty, and whatever
    it finds, [main] goes on to report overall success. *)
Theorem credential_never_fails_the_pipeline w :
  (∀ w1, test_file_preparation (add_stdout banner_line w) = (Val false, w1) →
     main w = (Val (), add_stdout stage1_failed_line w1))
  ∧ (∀ w1 w2,
       test_file_preparation (add_stdout banner_line w) = (Val true, w1) →
       simulate_workflow w1 = (Val false, w2) →
       main w = (Val (), add_stdout stage2_failed_line w2))
  ∧ (∀ w1 w2,
       test_file_preparation (add_stdout banner_line w) = (Val true, w1) →
       simulate_workflow w1 = (Val true, w2) →
       main w =
         (Val (),
          {| environ := environ w2;
             fs := fs w2;
             stdout := stdout w2
               ++ credential_lines (environ w2 !! "HF_TOKEN")
               ++ success_lines |})).
Proof.
  split; [|split].
  - intros w1 H1. by rewrite main_run, H1.
  - intros w1 w2 H1 H2. by rewrite main_run, H1, H2.
  - intros w1 w2 H1 H2. by rewrite main_run, H1, H2.
Qed.

Lemma credential_never_fails_the_pipeline_witness :
  (environ sample_staged_world !! "HF_TOKEN" = None
   ∧ main sample_world =
       (Val (),
        {| environ := environ sample_staged_world;
           fs := fs sample_staged_world;
           stdout := stdout sample_staged_world
             ++ credential_lines None
             ++ success_lines |}))
  ∧ main incomplete_world =
      (Val (),
       add_stdout stage1_failed_line
         (test_file_preparation (add_stdout banner_line incomplete_world)).2)
  ∧ main undecodable_world =
      (Val (),
       add_stdout stage2_failed_line
         (simulate_workflow
            (test_file_preparation
               (add_stdout banner_line undecodable_world)).2).2).
Proof.
  split; [split; [vm_compute; reflexivity|]|split].
  - destruct (credential_never_fails_the_pipeline sample_world)
      as (_ & _ & H).
    apply (H (test_file_preparation
                (add_stdout banner_line sample_world)).2);
      vm_compute; reflexivity.
  - apply (credential_never_fails_the_pipeline incomplete_world).
    vm_compute. reflexivity.
  - destruct (credential_never_fails_the_pipeline undecodable_world)
      as (_ & H & _).
    apply (H (test_file_preparation
                (add_stdout banner_line undecodable_world)).2);
      vm_compute; reflexivity.
Defined.

(** C8 as stated fails in its first clause: when a required file is
    missing, [main] returns after Stage 1 and the credential check does
    not run; its first line is not in the output. *)
Lemma credential_check_is_skipped_after_failed_stage :
  (main incomplete_world).1 = Val ()
  ∧ (Print (nl +:+ "🔑 Checking Hugging Face token...")
       ∉ stdout (main incomplete_world).2)
  ∧ last (stdout (main incomplete_world).2) = Some stage1_failed_line.
Proof.
  split; [vm_compute; reflexivity|]. split; [|vm_compute; reflexivity].
  replace (stdout (main incomplete_world).2) with
    [ banner_line;
      Print "🔍 Checking required files...";
      found_line "app_hf.py";
      found_line "requirements.txt";
      found_line "Dockerfile_HF";
      verdict_line ["openhands/"; "README_HF.md"];
      stage1_failed_line ] by (vm_compute; reflexivity).
  rewrite !elem_of_cons, elem_of_nil. intuition discriminate.
Qed.

End DeployFacts.

(* ===================================================================== *)
(** * More on the provisioner                                             *)
(* ===================================================================== *)

Module AppHfMore.
Import Py PyFacts AppHf AppHfFacts.
#[local] Open Scope list_scope.

(** ** Running the function, with the worlds of its failures *)

Lemma setup_run_worlds tok w :
  setup_hf_environment tok w =
  match makedirs true ["tmp"; "openhands"] (fs w) with
  | inl e => (Exc (OSError e ["tmp"; "openhands"]), before_dirs w)
  | inr n1 =>
    match makedirs true ["tmp"; "cache"] n1 with
    | inl e => (Exc (OSError e ["tmp"; "cache"]), set_fs n1 (before_dirs w))
    | inr n2 =>
      match makedirs true ["tmp"; "workspace"] n2 with
      | inl e => (Exc (OSError e ["tmp"; "workspace"]), after_setup tok w n2)
      | inr n3 => (Val ("/tmp/openhands", "/tmp/cache"), after_setup tok w n3)
      end
    end
  end.
Proof.
  assert (HJ : truthy (foldl (λ e kv, setdefault kv.1 kv.2 e) (environ w)
                 defaults_before_secret !! "JWT_SECRET")
               = truthy (environ w !! "JWT_SECRET")).
  { by rewrite (lookup_foldl_setdefault_other _ _ _ secret_not_in_before). }
  unfold after_setup, provisioned, before_dirs, setdefaults. simpl foldl in *.
  unfold setup_hf_environment, mbind, M_bind, mret, M_ret,
    os_environ_setdefault, os_makedirs, fs_op, os_getenv,
    os_environ_setitem, print;
  cbn [set_environ environ fs stdout set_fs add_stdout];
  change (parse "/tmp/openhands") with ["tmp"; "openhands"];
  change (parse "/tmp/cache") with ["tmp"; "cache"];
  change (parse "/tmp/workspace") with ["tmp"; "workspace"].
  destruct (makedirs true ["tmp"; "openhands"] (fs w)) as [e1|n1]; [done|].
  cbn [set_environ environ fs stdout set_fs add_stdout].
  destruct (makedirs true ["tmp"; "cache"] n1) as [e2|n2]; [done|].
  cbn [set_environ environ fs stdout set_fs add_stdout].
  rewrite HJ.
  destruct (truthy (environ w !! "JWT_SECRET"));
    cbn [negb set_environ environ fs stdout set_fs add_stdout];
    destruct (makedirs true ["tmp"; "workspace"] n2) as [e3|n3];
    rewrite ?(right_id_L [] (++)); try done.
Qed.

Lemma makedirs_errno b p n e :
  makedirs b p n = inl e → e = EEXIST ∨ e = ENOTDIR.
Proof.
  revert n. induction p as [|x p IH]; intros n; simpl.
  - destruct n; [intros [= <-]; by left|]. destruct b; [done|].
    intros [= <-]; by left.
  - destruct n as [c|m]; [intros [= <-]; by right|].
    destruct (m !! x) as [c|]; [|done].
    destruct (makedirs b p c) as [e'|c'] eqn:E; [|done].
    intros [= <-]. by eapply IH.
Qed.

Lemma is_dir_not_file p n : is_dir p n = true → is_file p n = false.
Proof. unfold is_dir, is_file. by destruct (walk p n) as [e|[c|m]]. Qed.

(** [makedirs] succeeds only where no file is in its way. *)
Lemma makedirs_creatable p n n' :
  makedirs true p n = inr n' → creatable p n = true.
Proof.
  intros E. unfold creatable. apply forallb_forall. intros q Hq.
  apply negb_true_iff. rewrite <- (makedirs_is_file _ _ _ _ q E).
  apply is_dir_not_file, (is_dir_prefix p); [|by eapply makedirs_is_dir].
  apply list_elem_of_In in Hq. clear -Hq. revert q Hq.
  induction p as [|x p IH]; intros q; simpl.
  - rewrite elem_of_cons, elem_of_nil. intros [->|[]]. done.
  - rewrite elem_of_cons. intros [->|Hq]; [apply prefix_nil|].
    apply list_elem_of_fmap in Hq as (q' & -> & Hq').
    apply prefix_cons, IH, Hq'.
Qed.

Lemma creatable_makedirs_iff p n :
  creatable p n = true ↔ ∃ n', makedirs true p n = inr n'.
Proof.
  split; [apply creatable_makedirs|]. intros [n' E].
  by eapply makedirs_creatable.
Qed.

Lemma creatable_frame p q n n' :
  makedirs true q n = inr n' → creatable p n' = creatable p n.
Proof.
  intros E. unfold creatable.
  induction (prefixes p) as [|r l IH]; simpl; [done|].
  by rewrite (makedirs_is_file _ _ _ _ _ E), IH.
Qed.

(** [makedirs] keeps every file, with its content. *)
Lemma makedirs_keeps_files b p n n' q c :
  makedirs b p n = inr n' → walk q n = inr (File c) → walk q n' = inr (File c).
Proof.
  revert n n' q. induction p as [|x p IH]; intros n n' q; simpl.
  - destruct n; [done|]. destruct b; [|done]. by intros [= <-].
  - destruct n as [c0|m]; [done|]. destruct (m !! x) as [c0|] eqn:E.
    + destruct (makedirs b p c0) as [e|c'] eqn:E'; [done|]. intros [= <-].
      destruct q as [|y q]; simpl; [done|].
      destruct (decide (x = y)) as [->|Hne].
      * rewrite lookup_insert_eq, E. by apply IH.
      * by rewrite lookup_insert_ne.
    + intros [= <-]. destruct q as [|y q]; simpl; [done|].
      destruct (decide (x = y)) as [->|Hne].
      * by rewrite E.
      * by rewrite lookup_insert_ne.
Qed.

(** ** Properties of [setup_hf_environment] *)

(** X1.  After a run that returns (its token not empty), no option of
    the defaulting table is unset, and the session secret is set to a
    value that is not empty: the status lines of the script never find
    one of them missing. *)
Theorem setup_leaves_every_option_set tok w r w' :
  tok ≠ "" →
  setup_hf_environment tok w = (Val r, w') →
  (∀ k v, (k, v) ∈ defaulting_table → is_Some (environ w' !! k))
  ∧ (∃ secret, environ w' !! "JWT_SECRET" = Some secret ∧ secret ≠ "").
Proof.
  intros Htok H.
  destruct (setup_returns _ _ _ _ H) as (n1 & n2 & _ & _ & _ & _ & ->).
  cbn [after_setup environ]. split.
  - intros k v Hin. rewrite (provisioned_default _ _ _ _ Hin). eauto.
  - rewrite provisioned_secret. eexists. split; [done|].
    pose proof (truthy_resolve_secret tok (environ w !! "JWT_SECRET") Htok)
      as T.
    unfold truthy in T. apply negb_true_iff, String.eqb_neq in T. exact T.
Qed.

Lemma setup_leaves_every_option_set_witness :
  let w' := (setup_hf_environment a_token empty_secret_world).2 in
  (∀ k v, (k, v) ∈ defaulting_table → is_Some (environ w' !! k))
  ∧ (∃ secret, environ w' !! "JWT_SECRET" = Some secret ∧ secret ≠ "").
Proof.
  apply (setup_leaves_every_option_set a_token empty_secret_world
           ("/tmp/openhands", "/tmp/cache")).
  - discriminate.
  - vm_compute. reflexivity.
Defined.

(** X3.  A regular file at, or on the way to, the file store or the
    cache directory makes the run raise the [OSError] of [os.makedirs]
    for the first of the two that is blocked, a [FileExistsError] or a
    [NotADirectoryError] that names that directory, before anything is
    printed. *)
Theorem setup_raises_for_blocked_dir tok w p :
  (p = ["tmp"; "openhands"] ∧ creatable p (fs w) = false)
  ∨ (p = ["tmp"; "cache"] ∧ creatable ["tmp"; "openhands"] (fs w) = true
     ∧ creatable p (fs w) = false) →
  ∃ code w',
    setup_hf_environment tok w = (Exc (OSError code p), w')
    ∧ (code = EEXIST ∨ code = ENOTDIR)
    ∧ stdout w' = stdout w.
Proof.
  rewrite setup_run_worlds. intros [[-> C]|(-> & C1 & C)].
  - destruct (makedirs true ["tmp"; "openhands"] (fs w)) as [e1|n1] eqn:E1.
    + eexists _, _. split; [done|]. split; [by eapply makedirs_errno|done].
    + by rewrite (makedirs_creatable _ _ _ E1) in C.
  - destruct (creatable_makedirs _ _ C1) as [n1 E1]. rewrite E1.
    rewrite <- (creatable_frame ["tmp"; "cache"] _ _ _ E1) in C.
    destruct (makedirs true ["tmp"; "cache"] n1) as [e2|n2] eqn:E2.
    + eexists _, _. split; [done|]. split; [by eapply makedirs_errno|done].
    + by rewrite (makedirs_creatable _ _ _ E2) in C.
Qed.

Lemma setup_raises_for_blocked_dir_witness :
  ∃ code w',
    setup_hf_environment a_token blocked_store_world
    = (Exc (OSError code ["tmp"; "openhands"]), w')
    ∧ (code = EEXIST ∨ code = ENOTDIR)
    ∧ stdout w' = stdout blocked_store_world.
Proof.
  apply (setup_raises_for_blocked_dir a_token blocked_store_world).
  left. split; [reflexivity|]. vm_compute. reflexivity.
Defined.

(** X4.  When the file store or the cache directory cannot be made,
    the run raises before it looks at the session secret: only the
    three options set before the first [os.makedirs] have got their
    defaults, [JWT_SECRET] and [FILE_STORE_PATH] are as the operator left
    them, and nothing is printed. *)
Theorem early_failure_generates_no_secret tok w :
  creatable ["tmp"; "openhands"] (fs w) = false
  ∨ creatable ["tmp"; "cache"] (fs w) = false →
  ∃ e w',
    setup_hf_environment tok w = (Exc e, w')
    ∧ environ w' = setdefaults defaults_before_dirs (environ w)
    ∧ environ w' !! "JWT_SECRET" = environ w !! "JWT_SECRET"
    ∧ environ w' !! "FILE_STORE_PATH" = environ w !! "FILE_STORE_PATH"
    ∧ stdout w' = stdout w.
Proof.
  intros Hblocked. rewrite setup_run_worlds.
  assert (HJ : ∀ k, k ∉ defaults_before_dirs.*1 →
            setdefaults defaults_before_dirs (environ w) !! k = environ w !! k).
  { intros k Hk. by apply lookup_foldl_setdefault_other. }
  assert (H1 : "JWT_SECRET" ∉ defaults_before_dirs.*1)
    by (cbn; rewrite !elem_of_cons, elem_of_nil; intuition discriminate).
  assert (H2 : "FILE_STORE_PATH" ∉ defaults_before_dirs.*1)
    by (cbn; rewrite !elem_of_cons, elem_of_nil; intuition discriminate).
  destruct (makedirs true ["tmp"; "openhands"] (fs w)) as [e1|n1] eqn:E1.
  { eexists _, _. split; [done|]. cbn [before_dirs set_environ environ stdout].
    by rewrite !HJ. }
  destruct (makedirs true ["tmp"; "cache"] n1) as [e2|n2] eqn:E2.
  { eexists _, _. split; [done|].
    cbn [before_dirs set_fs set_environ environ stdout]. by rewrite !HJ. }
  exfalso. destruct Hblocked as [C|C].
  - by rewrite (makedirs_creatable _ _ _ E1) in C.
  - rewrite <- (creatable_frame _ _ _ _ E1) in C.
    by rewrite (makedirs_creatable _ _ _ E2) in C.
Qed.

Lemma early_failure_generates_no_secret_witness :
  ∃ e w',
    setup_hf_environment a_token blocked_store_world = (Exc e, w')
    ∧ environ w'
      = setdefaults defaults_before_dirs (environ blocked_store_world)
    ∧ environ w' !! "JWT_SECRET" = environ blocked_store_world !! "JWT_SECRET"
    ∧ environ w' !! "FILE_STORE_PATH"
      = environ blocked_store_world !! "FILE_STORE_PATH"
    ∧ stdout w' = stdout blocked_store_world.
Proof.
  apply (early_failure_generates_no_secret a_token blocked_store_world).
  left. vm_compute. reflexivity.
Defined.

(** X5.  When only the workspace directory cannot be made, the run
    raises at its last step and rolls nothing back: the environment is
    provisioned in full, the session secret included, and the file
    store and cache directories are there. *)
Theorem late_failure_keeps_the_environment tok w :
  creatable ["tmp"; "openhands"] (fs w) = true →
  creatable ["tmp"; "cache"] (fs w) = true →
  creatable ["tmp"; "workspace"] (fs w) = false →
  ∃ e w',
    setup_hf_environment tok w = (Exc e, w')
    ∧ environ w' = provisioned tok (environ w)
    ∧ environ w' !! "JWT_SECRET"
      = Some (resolve_secret tok (environ w !! "JWT_SECRET"))
    ∧ is_dir ["tmp"; "openhands"] (fs w') = true
    ∧ is_dir ["tmp"; "cache"] (fs w') = true.
Proof.
  intros C1 C2 C3. rewrite setup_run_worlds.
  destruct (creatable_makedirs _ _ C1) as [n1 E1]. rewrite E1.
  rewrite <- (creatable_frame ["tmp"; "cache"] _ _ _ E1) in C2.
  rewrite <- (creatable_frame ["tmp"; "workspace"] _ _ _ E1) in C3.
  destruct (creatable_makedirs _ _ C2) as [n2 E2]. rewrite E2.
  rewrite <- (creatable_frame _ _ _ _ E2) in C3.
  destruct (makedirs true ["tmp"; "workspace"] n2) as [e3|n3] eqn:E3.
  - eexists _, _. split; [done|]. cbn [after_setup environ fs].
    split; [done|]. split; [apply provisioned_secret|]. split.
    + eapply makedirs_preserves_dir; [exact E2|]. by eapply makedirs_is_dir.
    + by eapply makedirs_is_dir.
  - by rewrite (makedirs_creatable _ _ _ E3) in C3.
Qed.

Lemma late_failure_keeps_the_environment_witness :
  ∃ e w',
    setup_hf_environment a_token blocked_workspace_world = (Exc e, w')
    ∧ environ w' = provisioned a_token (environ blocked_workspace_world)
    ∧ environ w' !! "JWT_SECRET"
      = Some (resolve_secret a_token
                (environ blocked_workspace_world !! "JWT_SECRET"))
    ∧ is_dir ["tmp"; "openhands"] (fs w') = true
    ∧ is_dir ["tmp"; "cache"] (fs w') = true.
Proof.
  apply (late_failure_keeps_the_environment a_token blocked_workspace_world);
    vm_compute; reflexivity.
Defined.

(** X6.  Whatever its outcome, [setup_hf_environment] removes and
    rewrites nothing: every regular file keeps its content, no path
    becomes or stops being a regular file, and every directory stays a
    directory. *)
Theorem setup_keeps_every_file tok w q :
  (∀ c, walk q (fs w) = inr (File c) →
        walk q (fs (setup_hf_environment tok w).2) = inr (File c))
  ∧ is_file q (fs (setup_hf_environment tok w).2) = is_file q (fs w)
  ∧ (is_dir q (fs w) = true →
     is_dir q (fs (setup_hf_environment tok w).2) = true).
Proof.
  rewrite setup_run_worlds.
  destruct (makedirs true ["tmp"; "openhands"] (fs w)) as [e1|n1] eqn:E1;
    [done|].
  destruct (makedirs true ["tmp"; "cache"] n1) as [e2|n2] eqn:E2.
  { cbn [snd set_fs fs]. split; [|split].
    - intros c. by eapply makedirs_keeps_files.
    - by eapply makedirs_is_file.
    - by eapply makedirs_preserves_dir. }
  assert (Hn2 : (∀ c, walk q (fs w) = inr (File c) → walk q n2 = inr (File c))
                ∧ is_file q n2 = is_file q (fs w)
                ∧ (is_dir q (fs w) = true → is_dir q n2 = true)).
  { split; [|split].
    - intros c Hc. eapply makedirs_keeps_files; [exact E2|].
      by eapply makedirs_keeps_files.
    - rewrite (makedirs_is_file _ _ _ _ _ E2). by eapply makedirs_is_file.
    - intros Hd. eapply makedirs_preserves_dir; [exact E2|].
      by eapply makedirs_preserves_dir. }
  destruct Hn2 as (F2 & I2 & D2).
  destruct (makedirs true ["tmp"; "workspace"] n2) as [e3|n3] eqn:E3;
    cbn [snd after_setup fs]; [done|].
  split; [|split].
  - intros c Hc. eapply makedirs_keeps_files; [exact E3|]. by apply F2.
  - by rewrite (makedirs_is_file _ _ _ _ _ E3).
  - intros Hd. eapply makedirs_preserves_dir; [exact E3|]. by apply D2.
Qed.

(** X7.  The generated token reaches nothing but the value of
    [JWT_SECRET]: two runs from the same world with different tokens have
    the same result, print the same lines, leave the same tree and agree
    on every other variable.  In particular the secret is never
    printed. *)
Theorem token_reaches_only_the_secret tok1 tok2 w :
  (setup_hf_environment tok1 w).1 = (setup_hf_environment tok2 w).1
  ∧ stdout (setup_hf_environment tok1 w).2
    = stdout (setup_hf_environment tok2 w).2
  ∧ fs (setup_hf_environment tok1 w).2 = fs (setup_hf_environment tok2 w).2
  ∧ (∀ k, k ≠ "JWT_SECRET" →
       environ (setup_hf_environment tok1 w).2 !! k
       = environ (setup_hf_environment tok2 w).2 !! k).
Proof.
  rewrite !setup_run_worlds.
  destruct (makedirs true ["tmp"; "openhands"] (fs w)) as [e1|n1]; [done|].
  destruct (makedirs true ["tmp"; "cache"] n1) as [e2|n2]; [done|].
  destruct (makedirs true ["tmp"; "workspace"] n2) as [e3|n3];
    cbn [fst snd after_setup environ fs stdout];
    (split; [reflexivity|split; [reflexivity|split; [reflexivity|]]];
     intros k Hk; by rewrite !provisioned_other).
Qed.

Lemma setup_keeps_every_file_witness :
  walk ["tmp"; "notes.txt"] (fs (setup_hf_environment a_token notes_world).2)
  = inr (File "keep").
Proof.
  apply (setup_keeps_every_file a_token notes_world ["tmp"; "notes.txt"]).
  vm_compute. reflexivity.
Defined.

Lemma token_reaches_only_the_secret_witness :
  environ (setup_hf_environment a_token operator_world).2 !! "MAX_ITERATIONS"
  = environ (setup_hf_environment another_token operator_world).2
      !! "MAX_ITERATIONS".
Proof.
  apply (token_reaches_only_the_secret a_token another_token operator_world).
  discriminate.
Defined.

End AppHfMore.

(* ===================================================================== *)
(** * More on the packaging pipeline                                      *)
(* ===================================================================== *)

Module DeployMore.
Import Py PyFacts Deploy DeployFacts.
#[local] Open Scope list_scope.

(** ** What staging leaves alone *)

(** The world in which a failing step stops still has the shape of the
    invariant. *)
Ltac stops_here :=
  cbn [snd put set_fs add_stdout fs environ];
  eexists; split; reflexivity.

Ltac stops_at_listing :=
  cbn [put set_fs add_stdout fs walk]; rewrite lookup_insert_eq;
  match goal with
  | |- context [unprintable ?t] => destruct (unprintable t)
  end;
  stops_here.

(** Whatever its outcome, the [try] block writes into the scratch
    directory only. *)
Lemma stage_files_frame w d :
  fs w = Dir (<["test_hf_space" := Dir ∅]> d) →
  ∃ s', fs (stage_files ["test_hf_space"] w).2
          = Dir (<["test_hf_space" := Dir s']> d)
        ∧ environ (stage_files ["test_hf_space"] w).2 = environ w.
Proof.
  intros Hfs. unfold stage_files.
  unfold mbind, M_bind, mret, M_ret, print, os_path_exists, print_listing.
  destruct parse_literals as
    (P1 & P2 & P3 & P4 & P5 & P6 & P7 & P8 & P9 & P10 & P11 & P12 & P13
     & _ & T).
  unfold joinpath.
  rewrite P1, P2, P3, P4, P5, P7, P8, P9, P10, P11, P12, P13.
  cbn [app].
  erewrite (copytree_into "test_hf_space" d); [|exact Hfs|done|done].
  destruct (d !! "openhands") as [[?|t]|];
    [cbn [snd add_stdout fs environ]; rewrite Hfs; by eauto|
    |cbn [snd add_stdout fs environ]; rewrite Hfs; by eauto].
  copy2_step.
  destruct (d !! "app_hf.py") as [[a|?]|] eqn:Ea; [|stops_here|stops_here].
  copy2_step. rewrite Ea. copy2_step.
  destruct (d !! "requirements.txt") as [[r|?]|]; [|stops_here|stops_here].
  copy2_step.
  destruct (d !! "Dockerfile_HF") as [[k|?]|]; [|stops_here|stops_here].
  erewrite (read_text_from "test_hf_space" d); [|reflexivity|done].
  destruct (d !! "README_HF.md") as [[m|?]|]; [|stops_here|stops_here].
  destruct (utf8_valid m); [|stops_here].
  erewrite (write_text_into "test_hf_space" d);
    [|reflexivity|by simplify_map_eq].
  rewrite fs_put. unfold exists_at.
  rewrite P6, T. cbn [walk negb]. rewrite lookup_insert_ne by done.
  destruct (d !! ".env.hf") as [[e|?]|] eqn:Ee.
  - copy2_step. rewrite Ee. stops_at_listing.
  - copy2_step. rewrite Ee. stops_here.
  - stops_at_listing.
Qed.

Lemma lookup_scratch_other (d : gmap string node) (n : node) name :
  name ≠ "test_hf_space" → <["test_hf_space" := n]> d !! name = d !! name.
Proof. intros H. by rewrite lookup_insert_ne. Qed.

(** Whatever its outcome, [simulate_workflow] keeps the environment and
    every entry of the invocation directory but the scratch directory. *)
Lemma simulate_workflow_frame w d :
  fs w = Dir d →
  environ (simulate_workflow w).2 = environ w
  ∧ ∃ d', fs (simulate_workflow w).2 = Dir d'
          ∧ ∀ name, name ≠ "test_hf_space" → d' !! name = d !! name.
Proof.
  intros Hfs. rewrite simulate_workflow_run, Hfs.
  assert (Hkeep : environ (add_stdout simulating_line w) = environ w
            ∧ ∃ d', fs (add_stdout simulating_line w) = Dir d'
                    ∧ ∀ name, name ≠ "test_hf_space" → d' !! name = d !! name).
  { split; [done|]. exists d. by rewrite <- Hfs. }
  destruct (stage_files_frame (post_reset w d) d eq_refl) as (s' & Hs & He).
  destruct (stage_files ["test_hf_space"] (post_reset w d)) as [[b|e] w2];
    cbn [snd] in Hs, He;
    (destruct (d !! "test_hf_space") as [[c|s]|]; [exact Hkeep| |]);
    cbn [snd add_stdout environ fs]; rewrite Hs, He;
    (split; [done|]; eexists; split; [done|];
     intros name Hname; by apply lookup_scratch_other).
Qed.








(** ** Stage 1 by the shape of the tree *)

Lemma exists_at_required n :
  exists_at "openhands/" n = is_dir ["openhands"] n
  ∧ ∀ name, name ∈ required_plain →
      exists_at name n = is_file [name] n || is_dir [name] n.
Proof.
  split.
  - unfold exists_at, is_dir. change (parse "openhands/") with ["openhands"].
    change (trailing_slash "openhands/") with true.
    by destruct (walk ["openhands"] n) as [e|[c|m]].
  - intros name Hname. unfold required_plain in Hname.
    rewrite !elem_of_cons, elem_of_nil in Hname.
    unfold exists_at, is_dir, is_file.
    destruct Hname as [->|[->|[->|[->|[]]]]];
      match goal with
      | |- context [parse ?s] =>
          change (parse s) with [s]; change (trailing_slash s) with false;
          by destruct (walk [s] n) as [e|[c|m]]
      end.
Qed.

Lemma stage1_shape_eq w :
  (test_file_preparation w).1 =
    Val (is_dir ["openhands"] (fs w)
         && forallb (λ name, is_file [name] (fs w) || is_dir [name] (fs w))
              required_plain)
  ∧ (test_file_preparation w).2
    = {| environ := environ w;
         fs := fs w;
         stdout := stdout (test_file_preparation w).2 |}.
Proof.
  rewrite test_file_preparation_run. cbv zeta. cbn [fst snd environ fs stdout].
  split; [|done]. f_equal.
  destruct (exists_at_required (fs w)) as [Ho Hp].
  unfold required_files. rewrite !filter_cons, filter_nil.
  rewrite Ho.
  rewrite (Hp "app_hf.py"), (Hp "requirements.txt"), (Hp "Dockerfile_HF"),
    (Hp "README_HF.md")
    by (unfold required_plain; rewrite !elem_of_cons; tauto).
  cbn [required_plain forallb].
  destruct (is_dir ["openhands"] (fs w));
    destruct (is_file ["app_hf.py"] (fs w) || is_dir ["app_hf.py"] (fs w));
    destruct (is_file ["requirements.txt"] (fs w)
              || is_dir ["requirements.txt"] (fs w));
    destruct (is_file ["Dockerfile_HF"] (fs w)
              || is_dir ["Dockerfile_HF"] (fs w));
    destruct (is_file ["README_HF.md"] (fs w)
              || is_dir ["README_HF.md"] (fs w));
    reflexivity.
Qed.

(** X8.  The precondition check looks at existence only.  It returns
    [True] exactly when [openhands] is a directory and each of the four
    other required names is there, as a regular file or as a directory:
    a regular file named [openhands] fails the check, a directory named
    [requirements.txt] passes it.  It changes neither environment nor
    tree. *)
Theorem stage1_by_shape w :
  (test_file_preparation w).1 =
    Val (is_dir ["openhands"] (fs w)
         && forallb (λ name, is_file [name] (fs w) || is_dir [name] (fs w))
              required_plain)
  ∧ environ (test_file_preparation w).2 = environ w
  ∧ fs (test_file_preparation w).2 = fs w.
Proof.
  destruct (stage1_shape_eq w) as [H1 H2]. split; [exact H1|].
  by rewrite H2.
Qed.

(** ** Failures of the [try] block *)

Ltac step_into_stage_files :=
  unfold stage_files;
  unfold mbind, M_bind, mret, M_ret, print, os_path_exists, print_listing;
  destruct parse_literals as
    (P1 & P2 & P3 & P4 & P5 & P6 & P7 & P8 & P9 & P10 & P11 & P12 & P13
     & _ & T);
  unfold joinpath;
  rewrite P1, P2, P3, P4, P5, P7, P8, P9, P10, P11, P12, P13;
  cbn [app].

Lemma stage_files_manifest_dir w d t a x :
  fs w = Dir (<["test_hf_space" := Dir ∅]> d) →
  d !! "openhands" = Some (Dir t) →
  d !! "app_hf.py" = Some (File a) →
  d !! "requirements.txt" = Some (Dir x) →
  stage_files ["test_hf_space"] w =
    (Exc (OSError EISDIR ["requirements.txt"]),
     {| environ := environ w;
        fs := Dir (<["test_hf_space" :=
                       Dir (<["app.py" := File a]>
                           (<["app_hf.py" := File a]>
                           (<["openhands" := Dir t]> ∅)))]> d);
        stdout := stdout w ++
          [ Print "📁 Copying openhands folder...";
            Print "📄 Copying app files...";
            Print "📋 Copying requirements..." ] |}).
Proof.
  intros Hfs Ho Ha Hr. step_into_stage_files.
  erewrite (copytree_into "test_hf_space" d); [|exact Hfs|done|done].
  rewrite Ho. copy2_step. rewrite Ha. copy2_step. rewrite Ha.
  copy2_step. rewrite Hr.
  f_equal. apply world_eq; cbn [put set_fs add_stdout environ fs stdout];
    [done|done|by rewrite <- !(assoc_L (++))].
Qed.

Lemma stage_files_undecodable w d t a r k m :
  fs w = Dir (<["test_hf_space" := Dir ∅]> d) →
  d !! "openhands" = Some (Dir t) →
  d !! "app_hf.py" = Some (File a) →
  d !! "requirements.txt" = Some (File r) →
  d !! "Dockerfile_HF" = Some (File k) →
  d !! "README_HF.md" = Some (File m) →
  utf8_valid m = false →
  stage_files ["test_hf_space"] w =
    (Exc (UnicodeDecodeError m),
     {| environ := environ w;
        fs := Dir (<["test_hf_space" :=
                       Dir (<["Dockerfile" := File k]>
                           (<["requirements.txt" := File r]>
                           (<["app.py" := File a]>
                           (<["app_hf.py" := File a]>
                           (<["openhands" := Dir t]> ∅)))))]> d);
        stdout := stdout w ++
          [ Print "📁 Copying openhands folder...";
            Print "📄 Copying app files...";
            Print "📋 Copying requirements...";
            Print "🐳 Copying Dockerfile...";
            Print "📖 Creating README with metadata..." ] |}).
Proof.
  intros Hfs Ho Ha Hr Hk Hm Hu. step_into_stage_files.
  erewrite (copytree_into "test_hf_space" d); [|exact Hfs|done|done].
  rewrite Ho. copy2_step. rewrite Ha. copy2_step. rewrite Ha.
  copy2_step. rewrite Hr. copy2_step. rewrite Hk.
  erewrite (read_text_from "test_hf_space" d); [|reflexivity|done].
  rewrite Hm, Hu.
  f_equal. apply world_eq; cbn [put set_fs add_stdout environ fs stdout];
    [done|done|by rewrite <- !(assoc_L (++))].
Qed.

Lemma simulate_workflow_caught w d e w2 :
  fs w = Dir d →
  is_file ["test_hf_space"] (fs w) = false →
  stage_files ["test_hf_space"] (post_reset w d) = (Exc e, w2) →
  simulate_workflow w = (Val false, add_stdout (failure_report e) w2).
Proof.
  intros Hfs Hs Hrun. pose proof (is_file_scratch _ _ Hfs Hs) as Hscratch.
  rewrite simulate_workflow_run, Hfs, Hrun.
  by destruct (d !! "test_hf_space") as [[c|s]|].
Qed.

Lemma is_file_is_dir_lookup d name :
  is_file [name] (Dir d) || is_dir [name] (Dir d)
  = bool_decide (is_Some (d !! name)).
Proof.
  unfold is_file, is_dir. cbn [walk].
  destruct (d !! name) as [[c|m]|]; symmetry.
  - apply bool_decide_eq_true_2. eauto.
  - apply bool_decide_eq_true_2. eauto.
  - apply bool_decide_eq_false_2. by intros [? ?].
Qed.

(** X10.  Stage 1 does not guard Stage 2: with a directory in the place
    of [requirements.txt], the precondition check succeeds and staging
    fails with [IsADirectoryError].  What was staged before the failure
    stays: the scratch directory holds the copied tree and the bootstrap
    script under both names, and nothing else. *)
Theorem directory_for_the_manifest w d t a x :
  fs w = Dir d →
  is_file ["test_hf_space"] (fs w) = false →
  d !! "openhands" = Some (Dir t) →
  d !! "app_hf.py" = Some (File a) →
  d !! "requirements.txt" = Some (Dir x) →
  is_Some (d !! "Dockerfile_HF") →
  is_Some (d !! "README_HF.md") →
  (test_file_preparation w).1 = Val true
  ∧ (simulate_workflow w).1 = Val false
  ∧ fs (simulate_workflow w).2
    = Dir (<["test_hf_space" :=
               Dir (<["app.py" := File a]>
                   (<["app_hf.py" := File a]>
                   (<["openhands" := Dir t]> ∅)))]> d)
  ∧ last (stdout (simulate_workflow w).2)
    = Some (failure_report (OSError EISDIR ["requirements.txt"])).
Proof.
  intros Hfs Hs Ho Ha Hr Hk Hm. split.
  - destruct (stage1_shape_eq w) as [-> _]. rewrite Hfs.
    unfold required_plain. cbn [forallb]. rewrite !is_file_is_dir_lookup.
    unfold is_dir. cbn [walk]. rewrite Ho, Ha, Hr.
    rewrite !bool_decide_eq_true_2 by eauto. done.
  - erewrite simulate_workflow_caught; [|exact Hfs|exact Hs|
      by apply (stage_files_manifest_dir _ d t a x)].
    cbn [fst snd add_stdout fs stdout post_reset]. split; [done|].
    split; [done|]. by rewrite last_snoc.
Qed.

Lemma directory_for_the_manifest_witness :
  (test_file_preparation manifest_dir_world).1 = Val true
  ∧ (simulate_workflow manifest_dir_world).1 = Val false
  ∧ fs (simulate_workflow manifest_dir_world).2
    = Dir (<["test_hf_space" :=
               Dir (<["app.py" := File "import os"]>
                   (<["app_hf.py" := File "import os"]>
                   (<["openhands" :=
                        Dir {[ "server.py" := File "app = None" ]}]> ∅)))]>
             (<["requirements.txt" := Dir ∅]> sample_dir))
  ∧ last (stdout (simulate_workflow manifest_dir_world).2)
    = Some (failure_report (OSError EISDIR ["requirements.txt"])).
Proof.
  apply (directory_for_the_manifest manifest_dir_world
           (<["requirements.txt" := Dir ∅]> sample_dir)
           {[ "server.py" := File "app = None" ]} "import os" ∅);
    try (vm_compute; reflexivity); vm_compute; eauto.
Defined.

(** X11.  A template that is not UTF-8 text passes the precondition
    check and makes staging fail with [UnicodeDecodeError] after all
    copies (the build file is staged), before [README.md] is written. *)
Theorem undecodable_template w d t a r k m :
  fs w = Dir d →
  is_file ["test_hf_space"] (fs w) = false →
  d !! "openhands" = Some (Dir t) →
  d !! "app_hf.py" = Some (File a) →
  d !! "requirements.txt" = Some (File r) →
  d !! "Dockerfile_HF" = Some (File k) →
  d !! "README_HF.md" = Some (File m) →
  utf8_valid m = false →
  (test_file_preparation w).1 = Val true
  ∧ (simulate_workflow w).1 = Val false
  ∧ walk ["test_hf_space"; "README.md"] (fs (simulate_workflow w).2)
    = inl ENOENT
  ∧ walk ["test_hf_space"; "Dockerfile"] (fs (simulate_workflow w).2)
    = inr (File k)
  ∧ last (stdout (simulate_workflow w).2)
    = Some (failure_report (UnicodeDecodeError m)).
Proof.
  intros Hfs Hs Ho Ha Hr Hk Hm Hu. split.
  - destruct (stage1_shape_eq w) as [-> _]. rewrite Hfs.
    unfold required_plain. cbn [forallb]. rewrite !is_file_is_dir_lookup.
    unfold is_dir. cbn [walk]. rewrite Ho, Ha, Hr, Hk, Hm.
    rewrite !bool_decide_eq_true_2 by eauto. done.
  - erewrite simulate_workflow_caught; [|exact Hfs|exact Hs|
      by apply (stage_files_undecodable _ d t a r k m)].
    cbn [fst snd add_stdout fs stdout post_reset walk]. split; [done|].
    rewrite !lookup_insert_eq. split; [by simplify_map_eq|].
    split; [by simplify_map_eq|]. by rewrite last_snoc.
Qed.

Lemma undecodable_template_witness :
  (test_file_preparation undecodable_world).1 = Val true
  ∧ (simulate_workflow undecodable_world).1 = Val false
  ∧ walk ["test_hf_space"; "README.md"]
      (fs (simulate_workflow undecodable_world).2) = inl ENOENT
  ∧ walk ["test_hf_space"; "Dockerfile"]
      (fs (simulate_workflow undecodable_world).2)
    = inr (File "FROM python:3.12")
  ∧ last (stdout (simulate_workflow undecodable_world).2)
    = Some (failure_report (UnicodeDecodeError (String "255"%char ""))).
Proof.
  apply (undecodable_template undecodable_world
           (<["README_HF.md" := File (String "255"%char "")]> sample_dir)
           {[ "server.py" := File "app = None" ]} "import os" "uvicorn");
    vm_compute; reflexivity.
Defined.

(** ** The pipeline as a whole *)

(** X14.  With all required entries there and a regular file named
    [test_hf_space], [main] does not report a failed stage: the
    exception of the reset leaves [main] uncaught, after the first line
    of Stage 2, with tree and environment untouched. *)
Theorem main_raises_on_blocked_scratch w d c :
  fs w = Dir d →
  d !! "test_hf_space" = Some (File c) →
  (∀ p, p ∈ required_files → exists_at p (fs w) = true) →
  (main w).1 = Exc (OSError ENOTDIR ["test_hf_space"])
  ∧ fs (main w).2 = fs w
  ∧ environ (main w).2 = environ w
  ∧ last (stdout (main w).2) = Some simulating_line.
Proof.
  intros Hfs Hc Hreq. rewrite main_run, test_file_preparation_run. cbv zeta.
  cbn [add_stdout environ fs stdout].
  rewrite (filter_agree (λ p, exists_at p (fs w) = false) (λ _, False))
    by (intros p Hp; by rewrite (Hreq p Hp)).
  change (filter (λ _ : string, False) required_files) with (@nil string).
  rewrite bool_decide_eq_true_2 by done.
  rewrite simulate_workflow_run. cbn [fs]. rewrite Hfs, Hc.
  cbn [fst snd add_stdout fs environ stdout]. split; [done|].
  split; [done|]. split; [done|]. by rewrite last_snoc.
Qed.

Lemma main_raises_on_blocked_scratch_witness :
  (main blocked_world).1 = Exc (OSError ENOTDIR ["test_hf_space"])
  ∧ fs (main blocked_world).2 = fs blocked_world
  ∧ environ (main blocked_world).2 = environ blocked_world
  ∧ last (stdout (main blocked_world).2) = Some simulating_line.
Proof.
  apply (main_raises_on_blocked_scratch blocked_world
           (<["test_hf_space" := File "notes"]> sample_dir) "notes").
  - reflexivity.
  - vm_compute. reflexivity.
  - intros p Hp. unfold required_files in Hp.
    rewrite !elem_of_cons, elem_of_nil in Hp.
    destruct Hp as [->|[->|[->|[->|[->|[]]]]]]; vm_compute; reflexivity.
Defined.

(** X15.  Whatever happens, staging and the whole pipeline change no
    environment variable and no entry of the invocation directory other
    than [test_hf_space]. *)
Theorem pipeline_touches_only_the_scratch_directory w d :
  fs w = Dir d →
  (environ (simulate_workflow w).2 = environ w
   ∧ ∃ d', fs (simulate_workflow w).2 = Dir d'
           ∧ ∀ name, name ≠ "test_hf_space" → d' !! name = d !! name)
  ∧ (environ (main w).2 = environ w
     ∧ ∃ d', fs (main w).2 = Dir d'
             ∧ ∀ name, name ≠ "test_hf_space" → d' !! name = d !! name).
Proof.
  intros Hfs. split; [by apply simulate_workflow_frame|].
  rewrite main_run, test_file_preparation_run. cbv zeta.
  cbn [add_stdout environ fs stdout].
  destruct (bool_decide _).
  - match goal with |- context [simulate_workflow ?W] =>
      destruct (simulate_workflow_frame W d Hfs) as (He & d' & Hd & Hsame);
      destruct (simulate_workflow W) as [[[|]|e] w2]
    end; cbn [snd add_stdout environ fs] in *; rewrite ?He; eauto.
  - cbn [snd add_stdout environ fs]. split; [done|]. exists d. by rewrite Hfs.
Qed.

Lemma pipeline_touches_only_the_scratch_directory_witness :
  (environ (simulate_workflow env_world).2 = environ env_world
   ∧ ∃ d', fs (simulate_workflow env_world).2 = Dir d'
           ∧ ∀ name, name ≠ "test_hf_space" →
               d' !! name
               = (<[".env.hf" := File "LLM_MODEL=x"]> sample_dir) !! name)
  ∧ (environ (main env_world).2 = environ env_world
     ∧ ∃ d', fs (main env_world).2 = Dir d'
             ∧ ∀ name, name ≠ "test_hf_space" →
                 d' !! name
                 = (<[".env.hf" := File "LLM_MODEL=x"]> sample_dir) !! name).
Proof.
  apply (pipeline_touches_only_the_scratch_directory env_world).
  reflexivity.
Defined.



End DeployMore.
